(** * etl_tnl_alert: a shallow embedding of the alert ETL script

    The script [etl_tnl_alert.py] is one straight-line program: it derives the
    key of the clean object, fetches the raw object, runs the spreadsheet
    transformation, runs the document-table transformation, serialises the
    resulting frame to CSV and stores it.

    Python strings are [string]s, Python exceptions are the [Raise] branch of
    [result], and calls that leave the script (S3, the logger) are recorded
    as [event]s of a trace.  What pandas, python-docx and dateutil compute
    from a byte stream or a piece of text is not part of the script; those
    functions are the fields of [Library]. *)

From Stdlib Require Import String Ascii List ZArith Lia Bool Arith.
Import ListNotations.
Local Open Scope string_scope.

(** ** Exceptions

    The exceptions of Python that the script itself can raise, [Exception]
    with the message of its two [raise] statements, and [LibraryError] for
    whatever else a library raises. *)

Inductive exn : Type :=
| AttributeError
| ValueError
| KeyError
| IndexError
| TypeError
| ParserError
| LibraryError (msg : string)
| Exception (msg : string).

Inductive result (A : Type) : Type :=
| Ok (a : A)
| Raise (e : exn).

Arguments Ok {A} a.
Arguments Raise {A} e.

Definition bind {A B : Type} (c : result A) (k : A -> result B) : result B :=
  match c with
  | Ok a => k a
  | Raise e => Raise e
  end.

Notation "x <- c ;; k" := (bind c (fun x => k))
  (at level 61, c at next level, right associativity).

Fixpoint mapM {A B : Type} (f : A -> result B) (l : list A) : result (list B) :=
  match l with
  | [] => Ok []
  | a :: l' => b <- f a ;; bs <- mapM f l' ;; Ok (b :: bs)
  end.

(** ** Python [str] methods used by the script *)

Module Py.

(** [s.startswith(p)] *)
Fixpoint startswith (p s : string) : bool :=
  match p, s with
  | EmptyString, _ => true
  | String a p', String b s' => Ascii.eqb a b && startswith p' s'
  | String _ _, EmptyString => false
  end.

(** [s.find(sub)]: the lowest index at which [sub] starts, or [-1]. *)
Fixpoint find_from (sub s : string) (i : Z) : Z :=
  if startswith sub s then i
  else match s with
       | EmptyString => (-1)%Z
       | String _ t => find_from sub t (i + 1)
       end.

Definition find (sub s : string) : Z := find_from sub s 0.

(** [sub in s] *)
Definition contains (sub s : string) : bool := (0 <=? find sub s)%Z.

(** [s.replace(old, new)]: every occurrence, scanned left to right without
    overlap.  [skip] counts the characters of a matched [old] that are still
    to be dropped. *)
Fixpoint replace_go (old new : string) (skip : nat) (s : string) : string :=
  match s with
  | EmptyString => EmptyString
  | String c t =>
      match skip with
      | S k => replace_go old new k t
      | O =>
          if startswith old s
          then new ++ replace_go old new (String.length old - 1) t
          else String c (replace_go old new 0 t)
      end
  end.

Fixpoint replace_empty (new s : string) : string :=
  new ++ match s with
         | EmptyString => EmptyString
         | String c t => String c (replace_empty new t)
         end.

Definition replace (old new s : string) : string :=
  match old with
  | EmptyString => replace_empty new s
  | _ => replace_go old new 0 s
  end.

(** [s.split(sep)] for a separator that is not empty (the script passes
    ["-"]): the piece before the first separator and the pieces after it. *)
Fixpoint split_go (sep : string) (skip : nat) (s : string) : string * list string :=
  match s with
  | EmptyString => (EmptyString, [])
  | String c t =>
      match skip with
      | S k => split_go sep k t
      | O =>
          if startswith sep s
          then (EmptyString,
                let '(h, r) := split_go sep (String.length sep - 1) t in h :: r)
          else let '(h, r) := split_go sep 0 t in (String c h, r)
      end
  end.

Definition split (sep s : string) : list string :=
  let '(h, r) := split_go sep 0 s in h :: r.

(** Whitespace as [str.strip()] sees it in the ASCII range.  A text is a
    sequence of bytes here: the methods below are those of Python on texts
    of ASCII characters, which [isascii] recognises. *)
Definition isspace (c : ascii) : bool :=
  let n := nat_of_ascii c in
  ((9 <=? n)%nat && (n <=? 13)%nat) || ((28 <=? n)%nat && (n <=? 32)%nat).

Fixpoint lstrip (s : string) : string :=
  match s with
  | EmptyString => EmptyString
  | String c t => if isspace c then lstrip t else s
  end.

Fixpoint rstrip (s : string) : string :=
  match s with
  | EmptyString => EmptyString
  | String c t =>
      match rstrip t with
      | EmptyString => if isspace c then EmptyString else String c EmptyString
      | r => String c r
      end
  end.

Definition strip (s : string) : string := rstrip (lstrip s).

(** [s.isascii()] *)
Fixpoint isascii (s : string) : bool :=
  match s with
  | EmptyString => true
  | String c t => (nat_of_ascii c <? 128)%nat && isascii t
  end.

Definition isupper (c : ascii) : bool :=
  let n := nat_of_ascii c in (65 <=? n)%nat && (n <=? 90)%nat.

Definition islower (c : ascii) : bool :=
  let n := nat_of_ascii c in (97 <=? n)%nat && (n <=? 122)%nat.

Definition upper_char (c : ascii) : ascii :=
  if islower c then ascii_of_nat (nat_of_ascii c - 32) else c.

Definition lower_char (c : ascii) : ascii :=
  if isupper c then ascii_of_nat (nat_of_ascii c + 32) else c.

Fixpoint lower (s : string) : string :=
  match s with
  | EmptyString => EmptyString
  | String c t => String (lower_char c) (lower t)
  end.

(** [s.capitalize()] on ASCII text: first character upper case, the others
    lower case. *)
Definition capitalize (s : string) : string :=
  match s with
  | EmptyString => EmptyString
  | String c t => String (upper_char c) (lower t)
  end.

(** [s.title()] on ASCII text: a letter that follows a character without
    case starts a word and is upper-cased, every other letter is
    lower-cased. *)
Fixpoint title_go (in_word : bool) (s : string) : string :=
  match s with
  | EmptyString => EmptyString
  | String c t =>
      let cased := isupper c || islower c in
      String (if in_word then lower_char c else upper_char c) (title_go cased t)
  end.

Definition title (s : string) : string := title_go false s.

(** [sep.join(parts)] *)
Fixpoint join (sep : string) (parts : list string) : string :=
  match parts with
  | [] => EmptyString
  | [p] => p
  | p :: rest => p ++ sep ++ join sep rest
  end.

(** The objects whose truth value the script tests. *)
Inductive value : Type :=
| PyNone
| PyBool (b : bool)
| PyInt (z : Z)
| PyStr (s : string).

Definition truthy (v : value) : bool :=
  match v with
  | PyNone => false
  | PyBool b => b
  | PyInt z => negb (z =? 0)%Z
  | PyStr s => negb (String.eqb s EmptyString)
  end.

End Py.

(** ** The organism pattern [([A-Z]\..*?)(?=,)] *)

Module OrgPattern.

Definition newline : ascii := ascii_of_nat 10.

(** The lazy [.*?] under the look-ahead [(?=,)]: how many characters it
    consumes before the first comma; [.] does not match a line feed. *)
Fixpoint lazy_until_comma (s : string) : option nat :=
  match s with
  | EmptyString => None
  | String c t =>
      if Ascii.eqb c ","%char then Some 0
      else if Ascii.eqb c newline then None
      else option_map S (lazy_until_comma t)
  end.

(** Length of the match that starts at the first character of [s]. *)
Definition match_at (s : string) : option nat :=
  match s with
  | String a (String d t) =>
      if Py.isupper a && Ascii.eqb d "."%char
      then option_map (fun k => 2 + k) (lazy_until_comma t)
      else None
  | _ => None
  end.

(** [comp_pattern.search(s)]: [group(0)] of the leftmost match, [None] when
    there is none. *)
Fixpoint search (s : string) : option string :=
  match match_at s with
  | Some n => Some (substring 0 n s)
  | None =>
      match s with
      | EmptyString => None
      | String _ t => search t
      end
  end.

(** [re.sub(org_pattern, f, s)] where [f] answers the empty string: every
    match is cut out. *)
Fixpoint sub_go (skip : nat) (s : string) : string :=
  match s with
  | EmptyString => EmptyString
  | String c t =>
      match skip with
      | S k => sub_go k t
      | O =>
          match match_at s with
          | Some n => sub_go (n - 1) t
          | None => String c (sub_go 0 t)
          end
      end
  end.

Definition sub (s : string) : string := sub_go 0 s.

End OrgPattern.

(** ** Frames *)

(** A pandas timestamp, to the second.  [NaT] is [None] at the places that
    can hold it. *)
Record timestamp : Type := Timestamp {
  year : Z;
  month : Z;
  day : Z;
  second_of_day : Z
}.

(** The frame the readers hand to the script: labelled columns of text.
    A cell of a sheet that is empty or holds a number or a date is not a
    text in pandas; the frames here are those of sheets and tables in which
    every cell that the script reads as text holds one. *)
Record frame : Type := Frame {
  columns : list string;
  rows : list (list string)
}.

(** A cell of the frame that is written out. *)
Inductive cell : Type :=
| Text (s : string)
| Time (t : option timestamp).

(** The frame under construction ([interim]): its columns in the order in
    which they were first assigned. *)
Definition table : Type := list (string * list cell).

Definition names (df : table) : list string := map fst df.

Definition nrows (df : table) : nat :=
  match df with
  | [] => 0
  | (_, col) :: _ => List.length col
  end.

(** [df[name] = col] *)
Fixpoint setitem (name : string) (col : list cell) (df : table) : table :=
  match df with
  | [] => [(name, col)]
  | (n, c) :: rest =>
      if String.eqb n name then (n, col) :: rest
      else (n, c) :: setitem name col rest
  end.

(** [df[name] = scalar]: the scalar fills the column. *)
Definition setitem_scalar (name : string) (v : cell) (df : table) : table :=
  setitem name (repeat v (nrows df)) df.

Fixpoint index_of (name : string) (l : list string) : option nat :=
  match l with
  | [] => None
  | n :: rest =>
      if String.eqb n name then Some 0 else option_map S (index_of name rest)
  end.

(** [data[name]]: [KeyError] when no column carries the label.  The labels
    of a frame are taken to be distinct: with a label that occurs twice
    pandas selects a frame, not a column. *)
Definition getitem (name : string) (data : frame) : result (list string) :=
  match index_of name (columns data) with
  | Some i => Ok (map (fun r => nth i r EmptyString) (rows data))
  | None => Raise KeyError
  end.

(** [data.columns = labels]: [ValueError] on a length mismatch. *)
Definition set_columns (labels : list string) (data : frame) : result frame :=
  if Nat.eqb (List.length labels) (List.length (columns data))
  then Ok (Frame labels (rows data))
  else Raise ValueError.

(** [data[k:].reset_index(drop=True)] *)
Definition drop_rows (k : nat) (data : frame) : frame :=
  Frame (columns data) (skipn k (rows data)).

(** [df[name]] on the frame under construction. *)
Fixpoint column (name : string) (df : table) : option (list cell) :=
  match df with
  | [] => None
  | (n, c) :: rest => if String.eqb n name then Some c else column name rest
  end.

(** One row of the written frame, as label/value pairs. *)
Definition record : Type := list (string * cell).

Definition row_at (df : table) (i : nat) : record :=
  map (fun nc => (fst nc, nth i (snd nc) (Text EmptyString))) df.

Definition to_records (df : table) : list record :=
  map (row_at df) (seq 0 (nrows df)).

Fixpoint field (name : string) (r : record) : option cell :=
  match r with
  | [] => None
  | (n, v) :: rest => if String.eqb n name then Some v else field name rest
  end.

(** ** The libraries the script calls *)

Record Library : Type := {
  (** [pd.read_excel(stream)]: the first row of the sheet gives the labels,
      the other rows are the rows of the frame *)
  read_excel : string -> result frame;
  (** the attribute lookup and call [data.find(text)].  A pandas frame has
      no method of that name and looks the attribute up among its labels,
      which is [Find.frame_attribute] below; the field is left open so that
      the reading of the comment above line 121 can be stated beside it *)
  df_find : frame -> string -> result Py.value;
  (** [pd.to_datetime(column, errors="coerce")]: the answers for the cells
      of a column, [NaT] for a cell that is not read as a date.  How a cell
      is read can depend on the other cells of the column, from which
      pandas may infer a format.  The first argument is the date and time
      of the call, which pandas answers for the texts [now] and [today]. *)
  to_datetime_coerce : timestamp -> list string -> list (option timestamp);
  (** the answer is a series on the index of the column *)
  to_datetime_coerce_length :
    forall (now : timestamp) (column : list string),
      List.length (to_datetime_coerce now column) = List.length column;
  (** [dparser.parse(text, fuzzy=True)]: the fields the text does not give
      are taken from the default date, which is the day of the call since
      the script passes none.  The first argument is the date and time of
      the call. *)
  dparser_parse : timestamp -> string -> result timestamp;
  (** [pd.to_datetime(datetime_object)] *)
  to_datetime : timestamp -> result timestamp;
  (** the cell texts of [Document(stream).tables], table by table, row by
      row; a table is a grid, its rows have the same number of cells *)
  docx_tables : string -> result (list (list (list string)));
  (** how [to_csv] prints a timestamp *)
  format_timestamp : timestamp -> string
}.

(** ** The transformations *)

Definition OUT_COL_NAMES : list string :=
  [ "Empty";
    "Testing-Results";
    "State";
    "Date_Received";
    "Date_Reported";
    "Last_Name";
    "First_Name";
    "DOB";
    "State_Lab_ID";
    "Specimen";
    "Date_Collection";
    "Submitting_Facility";
    "Sample_Collection_Facility";
    "Known_Positive";
    "Colonization_Detected" ].

(** The label of the mechanism column.  It is put together from two pieces
    because its parenthesis is followed by a star. *)
Definition MECHANISM : string := "Mechanism (" ++ "*Submitters Report)".

(** [alert_obj_key.replace(".xlsx", ".csv")] *)
Definition clean_obj_key (alert_obj_key : string) : string :=
  Py.replace ".xlsx" ".csv" alert_obj_key.

(** The two ways of taking a [Testing-Results] cell apart. *)
Inductive strategy : Type :=
| Hyphen
| OrganismPrefix.

(** [if data.find("Candida auris"):] *)
Definition select_strategy (L : Library) (data : frame) : result strategy :=
  found <- df_find L data "Candida auris" ;;
  Ok (if Py.truthy found then Hyphen else OrganismPrefix).

(** [m, o = x.split("-")] followed by [(m.strip(), o.strip())] *)
Definition hyphen_pair (x : string) : result (string * string) :=
  match Py.split "-" x with
  | [m; o] => Ok (Py.strip m, Py.strip o)
  | _ => Raise ValueError
  end.

(** The pair of [re.sub(org_pattern, ..., s)], which cuts the matches out,
    and [comp_pattern.search(s).group(0) or "UNKNOWN"]. *)
Definition prefix_pair (s : string) : result (string * string) :=
  let mechanism := OrgPattern.sub s in
  match OrgPattern.search s with
  | None => Raise AttributeError
  | Some g => Ok (mechanism, if String.eqb g EmptyString then "UNKNOWN" else g)
  end.

Definition split_cell (st : strategy) : string -> result (string * string) :=
  match st with
  | Hyphen => hyphen_pair
  | OrganismPrefix => prefix_pair
  end.

(** The unpacking of the transposed [pairs] into the two columns: there is
    nothing to unpack when [pairs] is empty. *)
Definition unzip_pairs (pairs : list (string * string)) : result (list string * list string) :=
  match pairs with
  | [] => Raise ValueError
  | _ => Ok (map fst pairs, map snd pairs)
  end.

Definition texts (l : list string) : list cell := map Text l.

Definition dates (L : Library) (now : timestamp) (l : list string) : list cell :=
  map Time (to_datetime_coerce L now l).

(** [last.str.title() + ", " + first.str.title()], element-wise. *)
Definition patient_names (last first : list string) : list string :=
  map (fun lf => Py.title (fst lf) ++ ", " ++ Py.title (snd lf)) (combine last first).

(** Lines 122-156: the columns of [interim], once the test of line 121
    has selected the convention [st].  [data] is the frame under the labels
    [OUT_COL_NAMES] and [interim] the frame of line 108. *)
Definition column_creation (L : Library) (now : timestamp) (st : strategy)
    (data : frame) (interim : table) : result table :=
  results <- getitem "Testing-Results" data ;;
  pairs <- mapM (split_cell st) results ;;
  mo <- unzip_pairs pairs ;;
  let interim := setitem MECHANISM (texts (fst mo)) interim in
  let interim := setitem "Organism" (texts (snd mo)) interim in
  received <- getitem "Date_Received" data ;;
  let interim := setitem "Date Received" (dates L now received) interim in
  reported <- getitem "Date_Reported" data ;;
  let interim := setitem "Date Reported" (dates L now reported) interim in
  last <- getitem "Last_Name" data ;;
  first <- getitem "First_Name" data ;;
  let interim := setitem "Patient Name" (texts (patient_names last first)) interim in
  dob <- getitem "DOB" data ;;
  let interim := setitem "DOB" (dates L now dob) interim in
  specimen <- getitem "Specimen" data ;;
  let interim := setitem "Source" (texts (map Py.capitalize specimen)) interim in
  collection <- getitem "Date_Collection" data ;;
  let interim := setitem "Date of Collection" (dates L now collection) interim in
  Ok (setitem_scalar "Testing Lab" (Text "TNL") interim).

(** Lines 100-156: the spreadsheet transformation. *)
Definition parse_spreadsheet (L : Library) (now : timestamp) (stream : string) : result table :=
  data <- read_excel L stream ;;
  let data := drop_rows 1 data in
  data <- set_columns OUT_COL_NAMES data ;;
  let interim : table := [] in
  st <- select_strategy L data ;;
  column_creation L now st data interim.

(** [data.iloc[0, 0]] *)
Definition iloc00 (raw : list (list string)) : result string :=
  match raw with
  | (c :: _) :: _ => Ok c
  | _ => Raise IndexError
  end.

(** [pd.to_datetime(dparser.parse(text, fuzzy=True))] *)
Definition header_date (L : Library) (now : timestamp) (text : string) : result timestamp :=
  d <- dparser_parse L now text ;;
  to_datetime L d.

(** [document.tables[0]] with the text of its cells. *)
Definition first_table (L : Library) (stream : string) : result (list (list string)) :=
  tables <- docx_tables L stream ;;
  match tables with
  | t :: _ => Ok t
  | [] => Raise IndexError
  end.

(** Lines 168-202: the document-table transformation. *)
Definition parse_document (L : Library) (now : timestamp) (stream : string) : result table :=
  raw <- first_table L stream ;;
  text <- iloc00 raw ;;
  date_received <- header_date L now text ;;
  labels <- match nth_error raw 1 with
            | Some r => Ok r
            | None => Raise KeyError
            end ;;
  let data := drop_rows 2 (Frame labels raw) in
  let interim : table := [] in
  mechanism <- getitem "Anti-Microbial Resistance RT-PCR" data ;;
  let interim := setitem MECHANISM (texts mechanism) interim in
  organism <- getitem "Organism ID" data ;;
  let interim := setitem "Organism" (texts organism) interim in
  let interim := setitem_scalar "Date Received" (Time (Some date_received)) interim in
  let interim := setitem_scalar "Date Reported" (Time (Some date_received)) interim in
  patient <- getitem "Patient Name" data ;;
  let interim := setitem "Patient Name" (texts patient) interim in
  dob <- getitem "DOB" data ;;
  let interim := setitem "DOB" (dates L now dob) interim in
  source <- getitem "Source" data ;;
  let interim := setitem "Source" (texts (map Py.capitalize source)) interim in
  collection <- getitem "Date of Collection" data ;;
  let interim := setitem "Date of Collection" (dates L now collection) interim in
  let interim := setitem_scalar "Testing Lab" (Text "GPHL") interim in
  facility <- getitem "Received from" data ;;
  Ok (setitem "Facility of Origin" (texts facility) interim).

(** ** [to_csv(buffer, index=False)] *)

Module Csv.

Definition quote : ascii := ascii_of_nat 34.
Definition line_feed : ascii := ascii_of_nat 10.

Definition special (c : ascii) : bool :=
  Ascii.eqb c ","%char || Ascii.eqb c quote || Ascii.eqb c line_feed.

Fixpoint needs_quotes (s : string) : bool :=
  match s with
  | EmptyString => false
  | String c t => special c || needs_quotes t
  end.

Fixpoint double_quotes (s : string) : string :=
  match s with
  | EmptyString => EmptyString
  | String c t =>
      if Ascii.eqb c quote then String quote (String quote (double_quotes t))
      else String c (double_quotes t)
  end.

(** Minimal quoting: a field is quoted when it holds the delimiter, the
    quote character or the line terminator, which is a line feed. *)
Definition escape (s : string) : string :=
  if needs_quotes s
  then String quote (double_quotes s ++ String quote EmptyString)
  else s.

Definition line (fields : list string) : string :=
  Py.join "," (map escape fields) ++ String line_feed EmptyString.

Definition render (L : Library) (c : cell) : string :=
  match c with
  | Text s => s
  | Time None => EmptyString
  | Time (Some t) => format_timestamp L t
  end.

(** The lines of the file before quoting: the labels, then one list of
    fields for each row.  There is no index column. *)
Definition fields_of (L : Library) (df : table) : list (list string) :=
  names df :: map (fun r => map (fun nv => render L (snd nv)) r) (to_records df).

Definition write_lines (lines : list string) : string :=
  fold_right String.append EmptyString lines.

Definition to_csv (L : Library) (df : table) : string :=
  write_lines (map line (fields_of L df)).

End Csv.

(** ** The run *)

(** What S3 answers: the [HTTPStatusCode] of the response metadata, absent
    when the metadata lacks it, and the body. *)
Record response : Type := Response {
  status_code : option Z;
  body : string
}.

(** The world outside the script during one run: the store and the date
    and time. *)
Record World : Type := {
  get_object : string -> string -> result response;
  put_object : string -> string -> string -> result response;
  clock : timestamp
}.

Record Parameters : Type := {
  RAW_BUCKET_NAME : string;
  ALERT_OBJ_KEY : string;
  CLEAN_BUCKET_NAME : string
}.

(** The calls that leave the script, in the order in which they are made.
    A request to S3 is recorded with the status it was answered with. *)
Inductive event : Type :=
| GetObject (bucket key : string) (status : option Z)
| PutObject (bucket key content : string) (status : option Z)
| LogInfo (msg : string)
| LogError (msg : string).

(** A statement of the script: it extends the trace and either yields a
    value or raises. *)
Definition script (A : Type) : Type := list event -> result A * list event.

Definition ret {A : Type} (a : A) : script A := fun tr => (Ok a, tr).

Definition raise {A : Type} (e : exn) : script A := fun tr => (Raise e, tr).

Definition emit (e : event) : script unit := fun tr => (Ok tt, (tr ++ [e])%list).

Definition lift {A : Type} (c : result A) : script A := fun tr => (c, tr).

Definition then_ {A B : Type} (c : script A) (k : A -> script B) : script B :=
  fun tr =>
    match c tr with
    | (Ok a, tr') => k a tr'
    | (Raise e, tr') => (Raise e, tr')
    end.

Notation "x <~ c ;; k" := (then_ c (fun x => k))
  (at level 61, c at next level, right associativity).
Notation "c ;;; k" := (then_ c (fun _ => k))
  (at level 61, right associativity).

(** [status != 200] *)
Definition not_200 (status : option Z) : bool :=
  match status with
  | Some z => negb (z =? 200)%Z
  | None => true
  end.

Definition s3_get (W : World) (bucket key : string) : script response :=
  r <~ lift (get_object W bucket key) ;;
  emit (GetObject bucket key (status_code r)) ;;;
  ret r.

Definition s3_put (W : World) (bucket key content : string) : script response :=
  r <~ lift (put_object W bucket key content) ;;
  emit (PutObject bucket key content (status_code r)) ;;;
  ret r.

Definition get_error (p : Parameters) : string :=
  "ERROR - Could not get object " ++ ALERT_OBJ_KEY p ++ " from bucket "
  ++ RAW_BUCKET_NAME p ++ ". ETL Cannot continue.".

Definition put_error (p : Parameters) : string :=
  "ERROR - Could not write transformed data object "
  ++ clean_obj_key (ALERT_OBJ_KEY p) ++ " to bucket " ++ CLEAN_BUCKET_NAME p
  ++ ". ETL Cannot continue.".

Definition obtained (p : Parameters) : string :=
  "Obtained object " ++ ALERT_OBJ_KEY p ++ " from bucket "
  ++ RAW_BUCKET_NAME p ++ ".".

Definition transformed (p : Parameters) : string :=
  "Transformed " ++ RAW_BUCKET_NAME p ++ "/" ++ ALERT_OBJ_KEY p
  ++ " and wrote result to " ++ CLEAN_BUCKET_NAME p ++ "/"
  ++ clean_obj_key (ALERT_OBJ_KEY p).

(** Lines 71-88. *)
Definition acquire (W : World) (p : Parameters) : script response :=
  r <~ s3_get W (RAW_BUCKET_NAME p) (ALERT_OBJ_KEY p) ;;
  if not_200 (status_code r)
  then emit (LogError (get_error p)) ;;; raise (Exception (get_error p))
  else emit (LogInfo (obtained p)) ;;; ret r.

(** Lines 205-230. *)
Definition publish (L : Library) (W : World) (p : Parameters) (interim : table) : script unit :=
  let csv := Csv.to_csv L interim in
  r <~ s3_put W (CLEAN_BUCKET_NAME p) (clean_obj_key (ALERT_OBJ_KEY p)) csv ;;
  if not_200 (status_code r)
  then emit (LogError (put_error p)) ;;; raise (Exception (put_error p))
  else emit (LogInfo (transformed p)).

(** The script from line 57 on.  The frame of the spreadsheet transformation
    is bound to [interim] and then replaced by the frame of the
    document-table transformation, which is the one handed to [to_csv].
    Both readers are given the body of the one response. *)
Definition main (L : Library) (W : World) (p : Parameters) : script unit :=
  r <~ acquire W p ;;
  interim <~ lift (parse_spreadsheet L (clock W) (body r)) ;;
  interim <~ lift (parse_document L (clock W) (body r)) ;;
  publish L W p interim.

Definition run (L : Library) (W : World) (p : Parameters) : result unit * list event :=
  main L W p [].

(** The contents that the run handed to [put_object]. *)
Fixpoint written (tr : list event) : list string :=
  match tr with
  | [] => []
  | PutObject _ _ content _ :: rest => content :: written rest
  | _ :: rest => written rest
  end.

(** The trace up to the point where the transformations start. *)
Definition acquired (p : Parameters) (r : response) : list event :=
  [ GetObject (RAW_BUCKET_NAME p) (ALERT_OBJ_KEY p) (status_code r);
    LogInfo (obtained p) ].

(** The request that stores the serialised frame. *)
Definition put_event (L : Library) (p : Parameters) (interim : table) (r : response) : event :=
  PutObject (CLEAN_BUCKET_NAME p) (clean_obj_key (ALERT_OBJ_KEY p))
    (Csv.to_csv L interim) (status_code r).

(** The labels that both transformations assign, in the order of their
    assignments. *)
Definition CANONICAL : list string :=
  [ MECHANISM; "Organism"; "Date Received"; "Date Reported"; "Patient Name";
    "DOB"; "Source"; "Date of Collection"; "Testing Lab" ].

(** The first line of a text, with its line feed. *)
Fixpoint first_line (s : string) : string :=
  match s with
  | EmptyString => EmptyString
  | String c t =>
      if Ascii.eqb c Csv.line_feed then String c EmptyString
      else String c (first_line t)
  end.

(** How many hyphens a cell holds. *)
Fixpoint hyphens (s : string) : nat :=
  match s with
  | EmptyString => 0
  | String c t => (if Ascii.eqb c "-"%char then 1 else 0) + hyphens t
  end.

(** Whether a text holds a dot. *)
Fixpoint has_dot (s : string) : bool :=
  match s with
  | EmptyString => false
  | String c t => Ascii.eqb c "."%char || has_dot t
  end.

(** The cells at position [j] of the rows, a missing cell being empty. *)
Definition column_at (j : nat) (rs : list (list string)) : list string :=
  map (fun r => nth j r EmptyString) rs.

(** The cell of [row] in the column that carries [label], as [data[label]]
    reads it. *)
Definition cell_under (label : string) (labels row : list string) : string :=
  match index_of label labels with
  | Some j => nth j row EmptyString
  | None => EmptyString
  end.

(** A cell that holds a text of ASCII characters.  An empty cell of a sheet
    is not a text in pandas. *)
Definition ascii_text (s : string) : Prop :=
  s <> EmptyString /\ Py.isascii s = true.

(** The labels that the document-table transformation reads. *)
Definition DOCUMENT_LABELS : list string :=
  [ "Anti-Microbial Resistance RT-PCR"; "Organism ID"; "Patient Name"; "DOB";
    "Source"; "Date of Collection"; "Received from" ].

(** Whether a text holds the character [c]. *)
Fixpoint occurs (c : ascii) (s : string) : bool :=
  match s with
  | EmptyString => false
  | String a t => Ascii.eqb a c || occurs c t
  end.

(** What a cell that cannot be taken apart raises under each convention. *)
Definition cell_error (st : strategy) : exn :=
  match st with
  | Hyphen => ValueError
  | OrganismPrefix => AttributeError
  end.

(** ** Two readings of [data.find("Candida auris")]

    [data] is a frame, and pandas frames have no method [find]: attribute
    access falls back to the column labels.  The other reading is the one
    the comment above the test describes, a substring search in the text of
    the [Testing-Results] column, done with [str.find]. *)

Module Find.

Definition frame_attribute (data : frame) (text : string) : result Py.value :=
  match index_of "find" (columns data) with
  | None => Raise AttributeError
  | Some _ => Raise TypeError
  end.

Definition column_text (data : frame) : result string :=
  col <- getitem "Testing-Results" data ;;
  Ok (String.concat EmptyString col).

Definition str_find (data : frame) (text : string) : result Py.value :=
  s <- column_text data ;;
  Ok (Py.PyInt (Py.find text s)).

(** The selection the comment asks for: does the marker occur in the column? *)
Definition marker_occurs (data : frame) : result bool :=
  s <- column_text data ;;
  Ok (Py.contains "Candida auris" s).

End Find.

(** ** A key with its extension replaced

    What the note above [clean_obj_key] describes: the extension of the file
    name is exchanged and the rest of the key is left alone.  The extension
    starts at the last dot of the last segment. *)

Module Extension.

(** The position of the last dot in [s] that no slash follows, counted
    from the position [i] of the first character of [s]. *)
Fixpoint last_dot (s : string) (i : nat) (found : option nat) : option nat :=
  match s with
  | EmptyString => found
  | String c t =>
      if Ascii.eqb c "."%char then last_dot t (S i) (Some i)
      else if Ascii.eqb c "/"%char then last_dot t (S i) None
      else last_dot t (S i) found
  end.

Definition replace_extension (ext key : string) : string :=
  match last_dot key 0 None with
  | Some i => substring 0 i key ++ ext
  | None => key ++ ext
  end.

End Extension.

(** ** A library and a world to run the script on *)

Module Sample.

Definition digit (c : ascii) : option Z :=
  let n := nat_of_ascii c in
  if ((48 <=? n)%nat && (n <=? 57)%nat)%bool then Some (Z.of_nat (n - 48)) else None.

Fixpoint number (acc : Z) (l : list ascii) : option Z :=
  match l with
  | [] => Some acc
  | c :: rest =>
      match digit c with
      | Some d => number (acc * 10 + d) rest
      | None => None
      end
  end.

(** Dates written [YYYY-MM-DD] are read; any other text is [NaT]. *)
Definition iso_date (s : string) : option timestamp :=
  match list_ascii_of_string s with
  | [y1; y2; y3; y4; d1; m1; m2; d2; a1; a2] =>
      if (Ascii.eqb d1 "-"%char && Ascii.eqb d2 "-"%char)%bool then
        match number 0 [y1; y2; y3; y4], number 0 [m1; m2], number 0 [a1; a2] with
        | Some y, Some m, Some d =>
            if ((1 <=? m) && (m <=? 12) && (1 <=? d) && (d <=? 31))%Z
            then Some (Timestamp y m d 0) else None
        | _, _, _ => None
        end
      else None
  | _ => None
  end.

(** The answers of the fuzzy parser at the header texts used below: a text
    with a full date, a text that names month and day only and so takes the
    year of the default date, and texts without a date. *)
Definition fuzzy (default : timestamp) (text : string) : result timestamp :=
  if String.eqb text "Alert report date: March 5, 2024" then Ok (Timestamp 2024 3 5 0)
  else if String.eqb text "Alert report date: March 5" then Ok (Timestamp (year default) 3 5 0)
  else Raise ParserError.

Definition digit_char (d : Z) : ascii := ascii_of_nat (48 + Z.to_nat (d mod 10)).

Definition two_digits (z : Z) : string :=
  String (digit_char (z / 10)) (String (digit_char z) EmptyString).

Definition four_digits (z : Z) : string :=
  two_digits (z / 100) ++ two_digits (z mod 100).

Definition iso_format (t : timestamp) : string :=
  four_digits (year t) ++ "-" ++ two_digits (month t) ++ "-" ++ two_digits (day t).

(** A library that decodes every stream to the given sheet and the given
    document tables and answers [data.find] as [finder] does. *)
Definition library (sheet : frame) (tables : list (list (list string)))
    (finder : frame -> string -> result Py.value) : Library :=
  {| read_excel := fun _ => Ok sheet;
     df_find := finder;
     to_datetime_coerce := fun _ => map iso_date;
     to_datetime_coerce_length := fun _ column => length_map iso_date column;
     dparser_parse := fuzzy;
     to_datetime := fun d => Ok d;
     docx_tables := fun _ => Ok tables;
     format_timestamp := iso_format |}.

(** A store that answers the read with [get_status] and the write with
    [put_status]. *)
Definition world (get_status put_status : option Z) (now : timestamp) : World :=
  {| get_object := fun _ _ => Ok (Response get_status "bytes");
     put_object := fun _ _ _ => Ok (Response put_status EmptyString);
     clock := now |}.

Definition parameters : Parameters :=
  {| RAW_BUCKET_NAME := "raw";
     ALERT_OBJ_KEY := "tnl/alert.xlsx";
     CLEAN_BUCKET_NAME := "clean" |}.

(** A sheet: the title row is the header that [read_excel] consumes, the
    row of labels is the first data row, one alert follows. *)
Definition sheet_of (results : list string) : frame :=
  Frame
    [ "TN Alert"; "1"; "2"; "3"; "4"; "5"; "6"; "7"; "8"; "9"; "10"; "11"; "12"; "13"; "14" ]
    ([ "No"; "Results"; "State"; "Received"; "Reported"; "Last"; "First";
       "DOB"; "Lab ID"; "Specimen"; "Collected"; "Submitter"; "Collector";
       "Known"; "Colonization" ]
     :: map (fun r =>
               [ "1"; r; "TN"; "2024-03-01"; "2024-03-04"; "SMITH"; "jane";
                 "1980-02-29"; "L1"; "urine culture"; "not known"; "F1"; "F2";
                 "N"; "N" ]) results).

Definition sheet : frame := sheet_of [ "MechX - OrgY" ].

(** The frame of a sheet at the test of line 121: the row of labels is
    dropped and the columns carry [OUT_COL_NAMES]. *)
Definition data_of (results : list string) : frame :=
  Frame OUT_COL_NAMES (skipn 1 (rows (sheet_of results))).

(** A document table: the row with the report date, the row of labels and
    two alerts. *)
Definition document_with (header : string) : list (list (list string)) :=
  [ [ [ header; EmptyString ];
      [ "Anti-Microbial Resistance RT-PCR"; "Organism ID"; "Patient Name";
        "DOB"; "Source"; "Date of Collection"; "Received from"; "Lab ID" ];
      [ "KPC"; "K. pneumoniae"; "Doe, John"; "1970-01-31"; "urine";
        "2024-03-02"; "General Hospital, East"; "77" ];
      [ "NDM"; "E. coli"; "Roe, Ann"; "unknown"; "wound swab";
        "2024-03-03"; "Clinic"; "78" ] ] ].

Definition document : list (list (list string)) :=
  document_with "Alert report date: March 5, 2024".

Definition always (v : Py.value) : frame -> string -> result Py.value :=
  fun _ _ => Ok v.

Definition now_2024 : timestamp := Timestamp 2024 3 6 0.

End Sample.

(** * Properties *)

(** ** The run, case by case *)

Lemma run_cases (L : Library) (W : World) (p : Parameters) :
  run L W p =
  match get_object W (RAW_BUCKET_NAME p) (ALERT_OBJ_KEY p) with
  | Raise e => (Raise e, [])
  | Ok r =>
      if not_200 (status_code r)
      then (Raise (Exception (get_error p)),
            [ GetObject (RAW_BUCKET_NAME p) (ALERT_OBJ_KEY p) (status_code r);
              LogError (get_error p) ])
      else
        match parse_spreadsheet L (clock W) (body r) with
        | Raise e => (Raise e, acquired p r)
        | Ok _ =>
            match parse_document L (clock W) (body r) with
            | Raise e => (Raise e, acquired p r)
            | Ok interim =>
                match put_object W (CLEAN_BUCKET_NAME p)
                        (clean_obj_key (ALERT_OBJ_KEY p)) (Csv.to_csv L interim) with
                | Raise e => (Raise e, acquired p r)
                | Ok r' =>
                    if not_200 (status_code r')
                    then (Raise (Exception (put_error p)),
                          (acquired p r
                           ++ [ put_event L p interim r'; LogError (put_error p) ])%list)
                    else (Ok tt,
                          (acquired p r
                           ++ [ put_event L p interim r'; LogInfo (transformed p) ])%list)
                end
            end
        end
  end.
Proof.
  unfold run, main, acquire, publish, s3_get, s3_put, then_, lift, emit, ret, raise,
    acquired, put_event.
  destruct (get_object W (RAW_BUCKET_NAME p) (ALERT_OBJ_KEY p)) as [r|e]; [|reflexivity].
  cbn [app].
  destruct (not_200 (status_code r)); [reflexivity|].
  cbn [app].
  destruct (parse_spreadsheet L (clock W) (body r)) as [sheet|e]; [|reflexivity].
  destruct (parse_document L (clock W) (body r)) as [interim|e]; [|reflexivity].
  destruct (put_object W _ _ _) as [r'|e]; [|reflexivity].
  cbn [app].
  destruct (not_200 (status_code r')); reflexivity.
Qed.

Lemma not_200_true (status : option Z) :
  not_200 status = true <-> status <> Some 200%Z.
Proof.
  destruct status as [z|]; simpl.
  - rewrite negb_true_iff, Z.eqb_neq. split; intros H; congruence.
  - split; [discriminate | reflexivity].
Qed.

Lemma not_200_false (status : option Z) :
  not_200 status = false <-> status = Some 200%Z.
Proof.
  destruct status as [z|]; simpl.
  - rewrite negb_false_iff, Z.eqb_eq. split; intros H; congruence.
  - split; discriminate.
Qed.

(** ** Frames: rows and columns *)

Lemma bind_ok {A B : Type} (c : result A) (k : A -> result B) (b : B) :
  (x <- c ;; k x) = Ok b -> exists a, c = Ok a /\ k a = Ok b.
Proof. destruct c as [a|e]; simpl; [eauto | discriminate]. Qed.

Ltac binds H :=
  repeat (apply bind_ok in H; destruct H as (? & ? & H)).

Lemma getitem_length (name : string) (data : frame) (col : list string) :
  getitem name data = Ok col -> List.length col = List.length (rows data).
Proof.
  unfold getitem. destruct (index_of name (columns data)); [|discriminate].
  intros H; injection H as <-. apply length_map.
Qed.

Lemma field_row_at (name : string) (df : table) (i : nat) :
  field name (row_at df i)
  = option_map (fun c => nth i c (Text EmptyString)) (column name df).
Proof.
  induction df as [|[n c] df IH]; simpl; [reflexivity|].
  destruct (String.eqb n name); [reflexivity | exact IH].
Qed.

Lemma in_to_records (df : table) (rec : record) :
  In rec (to_records df) <-> exists i, i < nrows df /\ rec = row_at df i.
Proof.
  unfold to_records. rewrite in_map_iff. split.
  - intros (i & <- & Hi). apply in_seq in Hi. exists i. split; [lia | reflexivity].
  - intros (i & Hi & ->). exists i. split; [reflexivity | apply in_seq; lia].
Qed.

Lemma length_to_records (df : table) : List.length (to_records df) = nrows df.
Proof. unfold to_records. now rewrite length_map, length_seq. Qed.

Lemma nth_repeat_lt {A : Type} (v d : A) (n i : nat) :
  i < n -> nth i (repeat v n) d = v.
Proof.
  revert i; induction n as [|n IH]; intros [|i] Hi; simpl; try lia; auto.
  apply IH; lia.
Qed.

(** A column filled with one value shows that value in every row. *)
Lemma constant_column (name : string) (v : cell) (df : table) (rec : record) :
  column name df = Some (repeat v (nrows df)) ->
  In rec (to_records df) -> field name rec = Some v.
Proof.
  intros Hc Hin. apply in_to_records in Hin as (i & Hi & ->).
  rewrite field_row_at, Hc. simpl. f_equal. now apply nth_repeat_lt.
Qed.

Lemma length_row_at (df : table) (i : nat) :
  List.length (row_at df i) = List.length (names df).
Proof. unfold row_at, names. now rewrite !length_map. Qed.

(** ** What the two transformations build *)

Lemma parse_document_shape (L : Library) (t : timestamp) (s : string) (interim : table) :
  parse_document L t s = Ok interim ->
  exists raw text d,
    first_table L s = Ok raw /\ iloc00 raw = Ok text /\ header_date L t text = Ok d /\
    names interim = (CANONICAL ++ ["Facility of Origin"])%list /\
    nrows interim = List.length (skipn 2 raw) /\
    column "Date Received" interim = Some (repeat (Time (Some d)) (nrows interim)) /\
    column "Date Reported" interim = Some (repeat (Time (Some d)) (nrows interim)) /\
    column "Testing Lab" interim = Some (repeat (Text "GPHL") (nrows interim)).
Proof.
  unfold parse_document. intros H. binds H. injection H as <-.
  match goal with
  | Hm : getitem "Anti-Microbial Resistance RT-PCR" _ = _ |- _ =>
      apply getitem_length in Hm; cbn [drop_rows rows] in Hm
  end.
  do 3 eexists. repeat split; try eassumption.
  all: unfold setitem_scalar, MECHANISM, texts; cbn; try reflexivity.
  rewrite length_map. assumption.
Qed.

Lemma column_creation_shape
    (L : Library) (now : timestamp) (st : strategy) (data : frame) (interim : table) :
  column_creation L now st data [] = Ok interim ->
  names interim = CANONICAL /\
  column "Testing Lab" interim = Some (repeat (Text "TNL") (nrows interim)).
Proof.
  unfold column_creation. intros H. binds H. injection H as <-.
  split; unfold setitem_scalar, MECHANISM, texts; cbn; reflexivity.
Qed.

(** ** What reaches the clean bucket *)

(** A frame under the labels [OUT_COL_NAMES] has no attribute [find]: with
    the attribute lookup of the frame the test of line 121 raises, and no
    convention is selected. *)
Lemma select_strategy_raises (L : Library) (rs : list (list string)) :
  df_find L = Find.frame_attribute ->
  select_strategy L (Frame OUT_COL_NAMES rs) = Raise AttributeError.
Proof. intros H. unfold select_strategy. rewrite H. reflexivity. Qed.

(** The spreadsheet transformation then ends at the reader, at the
    assignment of the labels or at the test; it returns no frame. *)
Lemma parse_spreadsheet_raises (L : Library) (now : timestamp) (stream : string) :
  df_find L = Find.frame_attribute ->
  parse_spreadsheet L now stream
  = match read_excel L stream with
    | Raise e => Raise e
    | Ok sheet =>
        if Nat.eqb 15 (List.length (columns sheet))
        then Raise AttributeError
        else Raise ValueError
    end.
Proof.
  intros H. unfold parse_spreadsheet.
  destruct (read_excel L stream) as [sheet|e]; [|reflexivity]. cbn [bind].
  unfold set_columns, drop_rows. cbn [columns rows List.length OUT_COL_NAMES].
  destruct (Nat.eqb 15 (List.length (columns sheet))); [|reflexivity].
  cbn [bind]. now rewrite (select_strategy_raises L _ H).
Qed.




(** ** The report date *)

(** C6.  When the document-table transformation returns a frame, the fuzzy
    parser has read a date from the first cell of row 0 of the table,
    [pd.to_datetime] has turned that date into a timestamp, and every record
    of the frame carries this timestamp both as [Date Received] and as
    [Date Reported]. *)
Theorem report_date_on_every_record
    (L : Library) (now : timestamp) (stream : string)
    (raw : list (list string)) (interim : table) :
  first_table L stream = Ok raw ->
  parse_document L now stream = Ok interim ->
  exists text parsed d,
    iloc00 raw = Ok text /\
    dparser_parse L now text = Ok parsed /\
    to_datetime L parsed = Ok d /\
    forall rec, In rec (to_records interim) ->
      field "Date Received" rec = Some (Time (Some d))
      /\ field "Date Reported" rec = Some (Time (Some d))
      /\ field "Date Received" rec = field "Date Reported" rec.
Proof.
  intros Hraw Hd.
  apply parse_document_shape in Hd
    as (raw' & text & d & Hraw' & Ht & Hh & _ & _ & Hrec & Hrep & _).
  rewrite Hraw in Hraw'. injection Hraw' as <-.
  unfold header_date in Hh.
  destruct (dparser_parse L now text) as [parsed|e] eqn:Hp; [|discriminate Hh].
  cbn [bind] in Hh.
  exists text, parsed, d. repeat split; try assumption.
  - eapply constant_column; eassumption.
  - eapply constant_column; eassumption.
  - rewrite (constant_column _ _ _ _ Hrec H), (constant_column _ _ _ _ Hrep H).
    reflexivity.
Qed.

Lemma report_date_on_every_record_witness :
  let L := Sample.library Sample.sheet Sample.document Find.frame_attribute in
  exists raw interim,
    first_table L "bytes" = Ok raw
    /\ parse_document L Sample.now_2024 "bytes" = Ok interim
    /\ List.length (to_records interim) = 2
    /\ iloc00 raw = Ok "Alert report date: March 5, 2024"
    /\ dparser_parse L Sample.now_2024 "Alert report date: March 5, 2024"
       = Ok (Timestamp 2024 3 5 0)
    /\ forall rec, In rec (to_records interim) ->
         field "Date Received" rec = Some (Time (Some (Timestamp 2024 3 5 0)))
         /\ field "Date Reported" rec = Some (Time (Some (Timestamp 2024 3 5 0))).
Proof.
  intros L.
  destruct (first_table L "bytes") as [raw|e] eqn:Hraw; [|discriminate Hraw].
  destruct (parse_document L Sample.now_2024 "bytes") as [interim|e] eqn:Hd;
    [|discriminate Hd].
  exists raw, interim.
  destruct (report_date_on_every_record L Sample.now_2024 "bytes" raw interim Hraw Hd)
    as (text & parsed & d & Ht & Hp & Hc & Hall).
  injection Hraw as <-. injection Ht as <-.
  pose proof Hp as Hp'. injection Hp as <-. injection Hc as <-.
  split; [reflexivity|]. split; [reflexivity|].
  split; [vm_compute in Hd; injection Hd as <-; reflexivity|].
  split; [reflexivity|]. split; [exact Hp'|].
  intros rec Hin. destruct (Hall rec Hin) as (H1 & H2 & _). split; assumption.
Defined.

(** ** Columns and the serialised file *)

Lemma fields_of_shape (L : Library) (df : table) :
  exists body_lines,
    Csv.fields_of L df = names df :: body_lines
    /\ List.length body_lines = nrows df
    /\ Forall (fun l => List.length l = List.length (names df)) body_lines.
Proof.
  unfold Csv.fields_of. eexists. split; [reflexivity|]. split.
  - now rewrite length_map, length_to_records.
  - apply Forall_forall. intros l Hl. apply in_map_iff in Hl as (rec & <- & Hrec).
    apply in_to_records in Hrec as (i & _ & ->).
    now rewrite length_map, length_row_at.
Qed.

Lemma first_line_header (rest : string) :
  first_line (Csv.line (CANONICAL ++ ["Facility of Origin"]) ++ rest)
  = Csv.line (CANONICAL ++ ["Facility of Origin"]).
Proof. reflexivity. Qed.

Lemma first_line_to_csv (L : Library) (now : timestamp) (stream : string) (interim : table) :
  parse_document L now stream = Ok interim ->
  first_line (Csv.to_csv L interim) = Csv.line (CANONICAL ++ ["Facility of Origin"]).
Proof.
  intros Hd. apply parse_document_shape in Hd as (_ & _ & _ & _ & _ & _ & Hn & _).
  unfold Csv.to_csv, Csv.fields_of. rewrite Hn.
  cbn [map Csv.write_lines fold_right]. apply first_line_header.
Qed.

(** C9.  The column-creation code of the spreadsheet transformation, under
    either convention, and the document-table transformation assign the same
    nine labels in the same order; the document-table frame has
    [Facility of Origin] after them and the spreadsheet frame does not have
    it.  The file that [to_csv] writes for the document-table frame starts
    with the line of these ten labels, and every line after it has ten
    fields: no index column is written. *)
Theorem column_order
    (L : Library) (now : timestamp) (st : strategy) (data : frame) (stream : string)
    (sheet_frame document_frame : table) :
  column_creation L now st data [] = Ok sheet_frame ->
  parse_document L now stream = Ok document_frame ->
  names sheet_frame = CANONICAL
  /\ names document_frame = (names sheet_frame ++ ["Facility of Origin"])%list
  /\ ~ In "Facility of Origin" (names sheet_frame)
  /\ exists body_lines,
       Csv.to_csv L document_frame
       = MECHANISM
         ++ ",Organism,Date Received,Date Reported,Patient Name,DOB,Source"
         ++ ",Date of Collection,Testing Lab,Facility of Origin"
         ++ String Csv.line_feed (Csv.write_lines (map Csv.line body_lines))
       /\ List.length body_lines = nrows document_frame
       /\ Forall (fun l => List.length l = 10) body_lines.
Proof.
  intros Hs Hd.
  apply column_creation_shape in Hs as (Hs & _).
  apply parse_document_shape in Hd as (_ & _ & _ & _ & _ & _ & Hd & _).
  rewrite Hs. repeat split; try assumption.
  - unfold CANONICAL, MECHANISM. simpl.
    intros H. repeat (destruct H as [H|H]; [discriminate H|]). exact H.
  - destruct (fields_of_shape L document_frame) as (body_lines & Hf & Hlen & Hall).
    exists body_lines. rewrite Hd in Hf, Hall. repeat split; try assumption.
    unfold Csv.to_csv. rewrite Hf. reflexivity.
Qed.

Lemma column_order_witness :
  let L := Sample.library Sample.sheet Sample.document Find.frame_attribute in
  let data := Sample.data_of [ "MechX - OrgY" ] in
  exists sheet_frame document_frame,
    column_creation L Sample.now_2024 Hyphen data [] = Ok sheet_frame
    /\ parse_document L Sample.now_2024 "bytes" = Ok document_frame
    /\ names sheet_frame = CANONICAL
    /\ names document_frame = (CANONICAL ++ ["Facility of Origin"])%list
    /\ first_line (Csv.to_csv L document_frame)
       = MECHANISM
         ++ ",Organism,Date Received,Date Reported,Patient Name,DOB,Source"
         ++ ",Date of Collection,Testing Lab,Facility of Origin"
         ++ String Csv.line_feed EmptyString.
Proof.
  intros L data.
  destruct (column_creation L Sample.now_2024 Hyphen data []) as [sheet_frame|e] eqn:Hs;
    [|discriminate Hs].
  destruct (parse_document L Sample.now_2024 "bytes") as [document_frame|e] eqn:Hd;
    [|discriminate Hd].
  exists sheet_frame, document_frame.
  split; [reflexivity|]. split; [reflexivity|].
  destruct (column_order L Sample.now_2024 Hyphen data "bytes" sheet_frame document_frame
              Hs Hd) as (Hn & Hdn & _ & body_lines & Hcsv & _).
  split; [exact Hn|]. split; [rewrite Hdn, Hn; reflexivity|].
  rewrite Hcsv. reflexivity.
Defined.


(** ** Failed reads and writes *)

Lemma obtained_is_not_transformed (p : Parameters) :
  LogInfo (obtained p) <> LogInfo (transformed p).
Proof. unfold obtained, transformed. simpl. discriminate. Qed.

(** C8 as it is worded fails for the write.  The status of the write is the
    answer to the request that stores the object: when it is examined, the
    request has been made, and it carried the whole file.  Here the store
    answers 500 to the write of a frame of two records; the error is logged
    and raised after that request. *)
Lemma failed_write_follows_the_request :
  let L := Sample.library Sample.sheet Sample.document Find.frame_attribute in
  let W := Sample.world (Some 200%Z) (Some 500%Z) Sample.now_2024 in
  exists interim,
    parse_document L (clock W) "bytes" = Ok interim
    /\ List.length (to_records interim) = 2
    /\ publish L W Sample.parameters interim []
       = (Raise (Exception (put_error Sample.parameters)),
          [ PutObject "clean" "tnl/alert.csv" (Csv.to_csv L interim) (Some 500%Z);
            LogError (put_error Sample.parameters) ])
    /\ written (snd (publish L W Sample.parameters interim [])) = [Csv.to_csv L interim]
    /\ first_line (Csv.to_csv L interim)
       = Csv.line (CANONICAL ++ ["Facility of Origin"]).
Proof.
  intros L W.
  destruct (parse_document L (clock W) "bytes") as [interim|e] eqn:Hd; [|discriminate Hd].
  exists interim. split; [reflexivity|].
  split; [vm_compute in Hd; injection Hd as <-; reflexivity|].
  split; [reflexivity|]. split; [reflexivity|].
  exact (first_line_to_csv L (clock W) "bytes" interim Hd).
Qed.

(** C8, as the script has it.  A read that is answered with a status other
    than 200 ends the run at once: the trace holds the read and the error,
    which is raised, and it is the same whatever the readers would compute.
    A write that is answered with a status other than 200 is followed by
    the error, logged and raised, and by nothing else: the request is not
    repeated and the message of success is not logged.  That one request
    carried the whole serialised frame. *)
Theorem failed_io_aborts (L : Library) (W : World) (p : Parameters) :
  (forall r,
     get_object W (RAW_BUCKET_NAME p) (ALERT_OBJ_KEY p) = Ok r ->
     status_code r <> Some 200%Z ->
     forall L',
       run L' W p
       = (Raise (Exception (get_error p)),
          [ GetObject (RAW_BUCKET_NAME p) (ALERT_OBJ_KEY p) (status_code r);
            LogError (get_error p) ]))
  /\ (forall interim r' tr,
        put_object W (CLEAN_BUCKET_NAME p) (clean_obj_key (ALERT_OBJ_KEY p))
          (Csv.to_csv L interim) = Ok r' ->
        status_code r' <> Some 200%Z ->
        publish L W p interim tr
        = (Raise (Exception (put_error p)),
           (tr ++ [ PutObject (CLEAN_BUCKET_NAME p) (clean_obj_key (ALERT_OBJ_KEY p))
                      (Csv.to_csv L interim) (status_code r');
                    LogError (put_error p) ])%list)).
Proof.
  split.
  - intros r Hg Hst L'. apply not_200_true in Hst.
    rewrite run_cases, Hg, Hst. reflexivity.
  - intros interim r' tr Hp Hst. apply not_200_true in Hst.
    unfold publish, s3_put, then_, lift, emit, raise, ret.
    rewrite Hp. cbn. rewrite Hst. cbn. now rewrite <- app_assoc.
Qed.

Lemma failed_io_aborts_witness :
  let L := Sample.library Sample.sheet Sample.document Find.frame_attribute in
  let refused := Sample.world (Some 404%Z) (Some 200%Z) Sample.now_2024 in
  let unstored := Sample.world (Some 200%Z) (Some 500%Z) Sample.now_2024 in
  let interim : table := [ ("Testing Lab", [ Text "GPHL" ]) ] in
  run L refused Sample.parameters
  = (Raise (Exception (get_error Sample.parameters)),
     [ GetObject "raw" "tnl/alert.xlsx" (Some 404%Z);
       LogError (get_error Sample.parameters) ])
  /\ publish L unstored Sample.parameters interim []
     = (Raise (Exception (put_error Sample.parameters)),
        [ PutObject "clean" "tnl/alert.csv" (Csv.to_csv L interim) (Some 500%Z);
          LogError (put_error Sample.parameters) ]).
Proof.
  intros L refused unstored interim. split.
  - refine (proj1 (failed_io_aborts L refused Sample.parameters)
              (Response (Some 404%Z) "bytes") eq_refl _ L).
    discriminate.
  - refine (proj2 (failed_io_aborts L unstored Sample.parameters)
              interim (Response (Some 500%Z) EmptyString) [] eq_refl _).
    discriminate.
Defined.

(** ** Two runs on the same input *)



(** ** The hyphen convention *)

Lemma split_go_hyphen_cons (c : ascii) (t : string) :
  Py.split_go "-" 0 (String c t)
  = if Ascii.eqb c "-"%char
    then (EmptyString, fst (Py.split_go "-" 0 t) :: snd (Py.split_go "-" 0 t))
    else (String c (fst (Py.split_go "-" 0 t)), snd (Py.split_go "-" 0 t)).
Proof.
  cbn [Py.split_go Py.startswith String.length Nat.sub].
  rewrite (Ascii.eqb_sym "-"%char c), andb_true_r.
  destruct (Ascii.eqb c "-"%char); destruct (Py.split_go "-" 0 t); reflexivity.
Qed.

Lemma split_go_no_hyphen (s : string) :
  hyphens s = 0 -> Py.split_go "-" 0 s = (s, []).
Proof.
  induction s as [|c t IH]; [reflexivity|].
  intros H. rewrite split_go_hyphen_cons. cbn [hyphens] in H.
  destruct (Ascii.eqb c "-"%char); [discriminate H|].
  rewrite IH by exact H. reflexivity.
Qed.

Lemma length_split_hyphen (s : string) :
  List.length (Py.split "-" s) = S (hyphens s).
Proof.
  unfold Py.split.
  assert (H : List.length (snd (Py.split_go "-" 0 s)) = hyphens s).
  { induction s as [|c t IH]; [reflexivity|].
    rewrite split_go_hyphen_cons. cbn [hyphens].
    destruct (Ascii.eqb c "-"%char); cbn [snd List.length]; rewrite IH; reflexivity. }
  destruct (Py.split_go "-" 0 s) as [h r]. cbn [List.length]. now rewrite <- H.
Qed.

Lemma split_single_hyphen (s : string) :
  hyphens s = 1 ->
  exists l r, s = l ++ "-" ++ r /\ hyphens l = 0 /\ hyphens r = 0
              /\ Py.split "-" s = [l; r].
Proof.
  induction s as [|c t IH]; [discriminate|].
  intros H. cbn [hyphens] in H. unfold Py.split. rewrite split_go_hyphen_cons.
  destruct (Ascii.eqb c "-"%char) eqn:Hc.
  - apply Ascii.eqb_eq in Hc. subst c. injection H as H.
    exists EmptyString, t. rewrite (split_go_no_hyphen t H). repeat split; auto.
  - destruct (IH H) as (l & r & -> & Hl & Hr & Hs).
    exists (String c l), r. unfold Py.split in Hs.
    destruct (Py.split_go "-" 0 (l ++ "-" ++ r)) as [h rest].
    injection Hs as -> ->. cbn [fst snd hyphens]. rewrite Hc.
    repeat split; auto.
Qed.

(** C5, as the script has it.  A cell with exactly one hyphen is split at
    it: the text before the hyphen, stripped, is the mechanism and the text
    after it, stripped, is the organism. *)
Theorem hyphen_pair_of_single_hyphen (cell : string) :
  hyphens cell = 1 ->
  exists left right,
    cell = left ++ "-" ++ right
    /\ hyphens left = 0 /\ hyphens right = 0
    /\ hyphen_pair cell = Ok (Py.strip left, Py.strip right).
Proof.
  intros H. destruct (split_single_hyphen cell H) as (l & r & Hc & Hl & Hr & Hs).
  exists l, r. unfold hyphen_pair. rewrite Hs. repeat split; assumption.
Qed.

Lemma hyphen_pair_of_single_hyphen_witness :
  hyphens "MechX - OrgY" = 1
  /\ exists left right,
       "MechX - OrgY" = left ++ "-" ++ right
       /\ hyphens left = 0 /\ hyphens right = 0
       /\ hyphen_pair "MechX - OrgY" = Ok (Py.strip left, Py.strip right).
Proof.
  split; [reflexivity|].
  exact (hyphen_pair_of_single_hyphen "MechX - OrgY" eq_refl).
Defined.

(** The example of the specification. *)
Example hyphen_pair_example :
  hyphen_pair "MechX - OrgY" = Ok ("MechX", "OrgY").
Proof. reflexivity. Qed.

(** Any other number of hyphens leaves the unpacking without exactly two
    parts. *)
Lemma hyphen_pair_other_counts (cell : string) :
  hyphens cell <> 1 -> hyphen_pair cell = Raise ValueError.
Proof.
  intros H. unfold hyphen_pair.
  pose proof (length_split_hyphen cell) as Hlen.
  destruct (Py.split "-" cell) as [|m [|o [|x rest]]]; try reflexivity.
  cbn in Hlen. lia.
Qed.

(** The claim C5 as it is worded fails on a cell with two hyphens: it is
    cut into three parts and no pair comes out. *)
Lemma hyphen_pair_two_hyphens :
  Py.split "-" "NDM-1 - K. pneumoniae" = ["NDM"; "1 "; " K. pneumoniae"]
  /\ hyphen_pair "NDM-1 - K. pneumoniae" = Raise ValueError
  /\ ~ exists mechanism organism,
        hyphen_pair "NDM-1 - K. pneumoniae" = Ok (mechanism, organism).
Proof.
  repeat split. intros (m & o & H). discriminate H.
Qed.

(** ** The organism-prefix convention *)

Lemma prefix_pair_without_match (s : string) :
  OrgPattern.search s = None -> prefix_pair s = Raise AttributeError.
Proof. intros H. unfold prefix_pair. now rewrite H. Qed.

Lemma match_at_shape (s : string) (n : nat) :
  OrgPattern.match_at s = Some n ->
  exists a t, Py.isupper a = true /\ substring 0 n s = String a (String "."%char t).
Proof.
  destruct s as [|a [|d t]]; try discriminate. cbn [OrgPattern.match_at].
  destruct (Py.isupper a) eqn:Ha; [|discriminate].
  destruct (Ascii.eqb d "."%char) eqn:Hd; [|discriminate].
  apply Ascii.eqb_eq in Hd. subst d.
  destruct (OrgPattern.lazy_until_comma t) as [k|]; [|discriminate].
  intros H. injection H as <-. exists a, (substring 0 k t). split; [exact Ha | reflexivity].
Qed.

Lemma search_shape (s g : string) :
  OrgPattern.search s = Some g ->
  exists a t, Py.isupper a = true /\ g = String a (String "."%char t).
Proof.
  induction s as [|c t IH]; [discriminate|].
  cbn [OrgPattern.search]. destruct (OrgPattern.match_at (String c t)) as [n|] eqn:Hm.
  - intros H. injection H as <-. exact (match_at_shape _ _ Hm).
  - exact IH.
Qed.

(** The alternative ["UNKNOWN"] is never taken: the pair exists only when
    the pattern matched, and a match is not the empty string. *)
Lemma organism_is_never_UNKNOWN (s mechanism organism : string) :
  prefix_pair s = Ok (mechanism, organism) -> organism <> "UNKNOWN".
Proof.
  unfold prefix_pair. destruct (OrgPattern.search s) as [g|] eqn:Hs; [|discriminate].
  apply search_shape in Hs as (a & t & _ & ->). cbn [String.eqb].
  intros H. injection H as _ <-. discriminate.
Qed.

(** C3 on the code.  The example of the specification comes out as stated.
    A cell without a match raises [AttributeError] where the claim expects
    the organism ["UNKNOWN"], and in a cell with two matches both are cut
    out of the mechanism, not only the one that is the organism. *)
Theorem prefix_pair_on_cells :
  prefix_pair "some prefix text S. aureus, more text"
  = Ok ("some prefix text , more text", "S. aureus")
  /\ OrgPattern.search "carbapenemase detected" = None
  /\ prefix_pair "carbapenemase detected" = Raise AttributeError
  /\ prefix_pair "KPC, K. pneumoniae, E. coli, urine"
     = Ok ("KPC, , , urine", "K. pneumoniae").
Proof. repeat split. Qed.

(** ** The test that selects the convention *)

Lemma find_from_range (sub s : string) (i : Z) :
  Py.find_from sub s i = (-1)%Z \/ (i <= Py.find_from sub s i)%Z.
Proof.
  revert i. induction s as [|c t IH]; intros i; cbn [Py.find_from].
  - destruct (Py.startswith sub EmptyString); [right; lia | now left].
  - destruct (Py.startswith sub (String c t)); [right; lia|].
    destruct (IH (i + 1)%Z) as [H|H]; [now left | right; lia].
Qed.

Lemma find_of_absent (sub s : string) :
  Py.contains sub s = false -> Py.find sub s = (-1)%Z.
Proof.
  unfold Py.contains, Py.find. intros H. apply Z.leb_gt in H.
  destruct (find_from_range sub s 0) as [H'|H']; [exact H' | lia].
Qed.

(** With [str.find] the test is false exactly when the text of the column
    starts with the marker. *)
Lemma str_find_selection (L : Library) (data : frame) (s : string) :
  df_find L = Find.str_find ->
  Find.column_text data = Ok s ->
  select_strategy L data
  = Ok (if (Py.find "Candida auris" s =? 0)%Z then OrganismPrefix else Hyphen).
Proof.
  intros HL Hs. unfold select_strategy. rewrite HL. unfold Find.str_find.
  rewrite Hs. cbn [bind Py.truthy].
  now destruct (Py.find "Candida auris" s =? 0)%Z.
Qed.

(** So a column without the marker is taken apart at hyphens. *)
Lemma absent_marker_selects_hyphen (L : Library) (data : frame) :
  df_find L = Find.str_find ->
  Find.marker_occurs data = Ok false ->
  select_strategy L data = Ok Hyphen.
Proof.
  intros HL Hm. unfold Find.marker_occurs in Hm.
  destruct (Find.column_text data) as [s|e] eqn:Hs; [|discriminate Hm].
  cbn [bind] in Hm. injection Hm as Hm.
  rewrite (str_find_selection L data s HL Hs), (find_of_absent _ _ Hm).
  reflexivity.
Qed.

(** C2 on the code.  In a column without the marker the test does not take
    the organism-prefix branch: [str.find] answers [-1], which is true, and
    the lookup of [find] on the frame raises.  In a column that starts with
    the marker [str.find] answers [0], which is false, and the hyphen branch
    is not taken.  With the lookup on the frame the run ends at the test,
    after the read and before any write. *)
Theorem marker_test_misselects :
  let by_text := Sample.library Sample.sheet Sample.document Find.str_find in
  let by_frame := Sample.library Sample.sheet Sample.document Find.frame_attribute in
  let without := Sample.data_of [ "KPC, K. pneumoniae, urine" ] in
  let leading := Sample.data_of [ "Candida auris - C. auris" ] in
  Find.marker_occurs without = Ok false
  /\ select_strategy by_text without = Ok Hyphen
  /\ select_strategy by_frame without = Raise AttributeError
  /\ Find.marker_occurs leading = Ok true
  /\ select_strategy by_text leading = Ok OrganismPrefix
  /\ select_strategy by_frame leading = Raise AttributeError
  /\ run by_frame (Sample.world (Some 200%Z) (Some 200%Z) Sample.now_2024)
       Sample.parameters
     = (Raise AttributeError, acquired Sample.parameters (Response (Some 200%Z) "bytes")).
Proof. repeat split. Qed.

(** Whatever the column holds, the lookup of [find] on a frame whose labels
    are [OUT_COL_NAMES] raises, and the run ends there. *)
Lemma frame_attribute_raises (rows : list (list string)) (text : string) :
  Find.frame_attribute (Frame OUT_COL_NAMES rows) text = Raise AttributeError.
Proof. reflexivity. Qed.

(** ** The key of the clean object *)

Lemma replace_go_no_dot (stem rest : string) :
  has_dot stem = false ->
  Py.replace_go ".xlsx" ".csv" 0 (stem ++ rest)
  = stem ++ Py.replace_go ".xlsx" ".csv" 0 rest.
Proof.
  induction stem as [|c t IH]; [reflexivity|].
  cbn [has_dot]. intros H. apply orb_false_elim in H as [Hc Ht].
  cbn [String.append Py.replace_go Py.startswith].
  rewrite (Ascii.eqb_sym "."%char c), Hc. cbn [andb].
  now rewrite IH.
Qed.

(** A key whose only dot starts a final [.xlsx] gets [.csv] in its place. *)
Lemma clean_obj_key_of_plain_key (stem : string) :
  has_dot stem = false -> clean_obj_key (stem ++ ".xlsx") = stem ++ ".csv".
Proof.
  intros H. unfold clean_obj_key, Py.replace.
  now rewrite replace_go_no_dot.
Qed.

(** C7 on the code.  [.xlsx] is replaced wherever it occurs, so a segment
    before the file name changes as well, and a key with another extension
    is returned as it is; replacing the extension gives other keys. *)
Theorem clean_obj_key_on_keys :
  clean_obj_key "tnl/alert.xlsx" = "tnl/alert.csv"
  /\ clean_obj_key "tnl.xlsx/alert.xlsx" = "tnl.csv/alert.csv"
  /\ Extension.replace_extension ".csv" "tnl.xlsx/alert.xlsx" = "tnl.xlsx/alert.csv"
  /\ clean_obj_key "tnl/alert.docx" = "tnl/alert.docx"
  /\ Extension.replace_extension ".csv" "tnl/alert.docx" = "tnl/alert.csv".
Proof. repeat split. Qed.

(** ** Dates *)

(** The date columns hold what the coercing parser answers, [NaT] included;
    building them cannot raise. *)
Lemma dates_are_coerced
    (L : Library) (now : timestamp) (l : list string) (i : nat) (s : string) :
  nth_error l i = Some s ->
  nth_error (dates L now l) i
  = Some (Time (nth i (to_datetime_coerce L now l) None)).
Proof.
  intros H. unfold dates. rewrite nth_error_map.
  assert (Hi : i < List.length (to_datetime_coerce L now l)).
  { rewrite to_datetime_coerce_length. apply nth_error_Some. congruence. }
  now rewrite (nth_error_nth' _ None Hi).
Qed.

(** The report date is parsed without such a coercion: what the fuzzy parser
    raises leaves the transformation. *)
Lemma header_date_failure_propagates
    (L : Library) (now : timestamp) (stream : string)
    (raw : list (list string)) (text : string) (e : exn) :
  first_table L stream = Ok raw ->
  iloc00 raw = Ok text ->
  dparser_parse L now text = Raise e ->
  parse_document L now stream = Raise e.
Proof.
  intros Hraw Ht He. unfold parse_document, header_date.
  rewrite Hraw. cbn [bind]. rewrite Ht. cbn [bind]. rewrite He. reflexivity.
Qed.

(** C4 on the code.  A date cell that is not a date becomes [NaT] in its
    column, but a header row without a date makes the document-table
    transformation raise [ParserError], and the run ends with it before
    anything is written. *)
Theorem header_without_date_raises :
  let L := Sample.library Sample.sheet
             (Sample.document_with "Carbapenemase alert, no date given")
             (Sample.always (Py.PyInt (-1))) in
  let W := Sample.world (Some 200%Z) (Some 200%Z) Sample.now_2024 in
  dates L Sample.now_2024 [ "1970-01-31"; "unknown"; EmptyString ]
  = [ Time (Some (Timestamp 1970 1 31 0)); Time None; Time None ]
  /\ parse_document L Sample.now_2024 "bytes" = Raise ParserError
  /\ fst (run L W Sample.parameters) = Raise ParserError
  /\ written (snd (run L W Sample.parameters)) = [].
Proof. repeat split. Qed.

(** * Further properties of the two transformations and of a run *)

(** ** The records of the spreadsheet transformation *)

Lemma mapM_nth {A B : Type} (f : A -> result B) (l : list A) (bs : list B) (i : nat) (a : A) :
  mapM f l = Ok bs -> nth_error l i = Some a ->
  exists b, f a = Ok b /\ nth_error bs i = Some b.
Proof.
  revert bs i. induction l as [|x l IH]; intros bs i H Hn.
  - destruct i; discriminate Hn.
  - cbn [mapM] in H. binds H. injection H as <-.
    destruct i as [|i]; cbn [nth_error] in *.
    + injection Hn as ->. eauto.
    + eauto.
Qed.

Lemma mapM_length {A B : Type} (f : A -> result B) (l : list A) (bs : list B) :
  mapM f l = Ok bs -> List.length bs = List.length l.
Proof.
  revert bs. induction l as [|x l IH]; intros bs H; cbn [mapM] in H.
  - now injection H as <-.
  - binds H. injection H as <-. cbn. f_equal. eauto.
Qed.

(** The first cell that raises decides what the comprehension raises. *)
Lemma mapM_raises {A B : Type} (f : A -> result B) (l : list A) (a : A) (e : exn) :
  In a l -> (exists e', f a = Raise e') ->
  (forall x e', f x = Raise e' -> e' = e) ->
  mapM f l = Raise e.
Proof.
  intros Hin (e' & Ha) Hall. induction l as [|x l IH]; [destruct Hin|].
  cbn [mapM]. destruct (f x) as [b|ex] eqn:Hx.
  - cbn [bind]. destruct Hin as [->|Hin]; [congruence|].
    rewrite (IH Hin). reflexivity.
  - cbn [bind]. now rewrite (Hall _ _ Hx).
Qed.

Lemma getitem_out_col (name : string) (i : nat) (rs : list (list string)) :
  index_of name OUT_COL_NAMES = Some i ->
  getitem name (Frame OUT_COL_NAMES rs) = Ok (column_at i rs).
Proof. intros H. unfold getitem. cbn [columns rows]. now rewrite H. Qed.

Lemma nth_map_nth_error {A B : Type} (f : A -> B) (l : list A) (i : nat) (a : A) (d : B) :
  nth_error l i = Some a -> nth i (map f l) d = f a.
Proof.
  intros H. apply nth_error_nth. now apply map_nth_error.
Qed.

Lemma nth_error_combine {A B : Type} (l : list A) (l' : list B) (i : nat) (a : A) (b : B) :
  nth_error l i = Some a -> nth_error l' i = Some b ->
  nth_error (combine l l') i = Some (a, b).
Proof.
  revert l' i. induction l as [|x l IH]; intros [|y l'] [|i] Ha Hb;
    cbn in *; try discriminate; try congruence.
  now apply IH.
Qed.

Lemma unzip_pairs_ok (pairs : list (string * string)) (mo : list string * list string) :
  unzip_pairs pairs = Ok mo ->
  mo = (map fst pairs, map snd pairs) /\ pairs <> [].
Proof.
  destruct pairs; [discriminate|]. intros H. injection H as <-. now split.
Qed.

(** What the column-creation code has computed when it returns. *)
Lemma column_creation_ok
    (L : Library) (now : timestamp) (st : strategy) (rs : list (list string))
    (interim : table) :
  column_creation L now st (Frame OUT_COL_NAMES rs) [] = Ok interim ->
  exists pairs,
    mapM (split_cell st) (column_at 1 rs) = Ok pairs
    /\ pairs <> []
    /\ interim
       = [ (MECHANISM, texts (map fst pairs));
           ("Organism", texts (map snd pairs));
           ("Date Received", dates L now (column_at 3 rs));
           ("Date Reported", dates L now (column_at 4 rs));
           ("Patient Name",
            texts (patient_names (column_at 5 rs) (column_at 6 rs)));
           ("DOB", dates L now (column_at 7 rs));
           ("Source", texts (map Py.capitalize (column_at 9 rs)));
           ("Date of Collection", dates L now (column_at 10 rs));
           ("Testing Lab", repeat (Text "TNL") (List.length pairs)) ].
Proof.
  intros H. unfold column_creation in H. binds H. injection H as <-.
  repeat match goal with
  | Hg : getitem ?n (Frame OUT_COL_NAMES _) = Ok _ |- _ =>
      rewrite (getitem_out_col n _ _ eq_refl) in Hg; injection Hg as <-
  end.
  match goal with Hu : unzip_pairs _ = Ok _ |- _ =>
    apply unzip_pairs_ok in Hu as [-> Hne]
  end.
  eexists. split; [eassumption|]. split; [exact Hne|].
  unfold setitem_scalar, MECHANISM, texts, column_at. cbn [fst snd].
  cbn [setitem String.eqb Ascii.eqb Bool.eqb String.append nrows].
  now rewrite !length_map.
Qed.

Lemma length_dates (L : Library) (now : timestamp) (l : list string) :
  List.length (dates L now l) = List.length l.
Proof. unfold dates. now rewrite length_map, to_datetime_coerce_length. Qed.

Lemma nth_dates (L : Library) (now : timestamp) (l : list string) (i : nat) :
  i < List.length l ->
  nth i (dates L now l) (Text EmptyString)
  = Time (nth i (to_datetime_coerce L now l) None).
Proof.
  intros Hi. unfold dates.
  rewrite (nth_indep _ (Text EmptyString) (Time None))
    by (now rewrite length_map, to_datetime_coerce_length).
  apply map_nth.
Qed.

(** X1.  When the column-creation code of the spreadsheet transformation
    returns a frame, under either convention, the frame it was given has at
    least one row, and the frame it returns has one record for each of
    these rows: every column has that many cells. *)
Theorem spreadsheet_row_count
    (L : Library) (now : timestamp) (st : strategy) (rs : list (list string))
    (interim : table) :
  column_creation L now st (Frame OUT_COL_NAMES rs) [] = Ok interim ->
  1 <= nrows interim
  /\ nrows interim = List.length rs
  /\ List.length (to_records interim) = nrows interim
  /\ Forall (fun nc => List.length (snd nc) = nrows interim) interim.
Proof.
  intros H.
  destruct (column_creation_ok L now st rs interim H) as (pairs & Hm & Hne & ->).
  pose proof (mapM_length _ _ _ Hm) as Hlen.
  unfold column_at in Hlen. rewrite length_map in Hlen.
  rewrite length_to_records.
  cbn [nrows]. unfold texts. rewrite !length_map.
  split. { destruct pairs; [congruence | cbn; lia]. }
  split; [exact Hlen|]. split; [reflexivity|].
  repeat constructor; cbn [snd]; unfold patient_names, column_at;
    rewrite ?length_dates, ?length_map, ?length_combine, ?length_map, ?repeat_length;
    lia.
Qed.

Lemma spreadsheet_row_count_witness :
  let L := Sample.library Sample.sheet Sample.document Find.frame_attribute in
  let rs := skipn 1 (rows (Sample.sheet_of [ "KPC - K. pneumoniae"; "NDM - E. coli" ])) in
  exists interim,
    column_creation L Sample.now_2024 Hyphen (Frame OUT_COL_NAMES rs) [] = Ok interim
    /\ nrows interim = 2
    /\ List.length (to_records interim) = nrows interim.
Proof.
  intros L rs.
  destruct (column_creation L Sample.now_2024 Hyphen (Frame OUT_COL_NAMES rs) [])
    as [interim|e] eqn:H; [|discriminate H].
  exists interim. split; [reflexivity|].
  destruct (spreadsheet_row_count L Sample.now_2024 Hyphen rs interim H)
    as (_ & Hn & Hrec & _).
  split; [rewrite Hn; reflexivity | exact Hrec].
Defined.

(** X2.  The record that the column-creation code builds for a row whose
    name and specimen cells hold ASCII text: the cell at position 1 taken
    apart by the convention, the answers of the coercing date parser for
    the row in the columns at positions 3, 4, 7 and 10, the names at
    positions 5 and 6 in title case and joined by a comma, the specimen at
    position 9 capitalised, and the label [TNL]. *)
Theorem spreadsheet_record
    (L : Library) (now : timestamp) (st : strategy) (rs : list (list string))
    (interim : table) (i : nat) (row : list string) :
  column_creation L now st (Frame OUT_COL_NAMES rs) [] = Ok interim ->
  nth_error rs i = Some row ->
  ascii_text (nth 5 row EmptyString) ->
  ascii_text (nth 6 row EmptyString) ->
  ascii_text (nth 9 row EmptyString) ->
  exists mechanism organism,
    split_cell st (nth 1 row EmptyString) = Ok (mechanism, organism)
    /\ row_at interim i
       = [ (MECHANISM, Text mechanism);
           ("Organism", Text organism);
           ("Date Received",
            Time (nth i (to_datetime_coerce L now (column_at 3 rs)) None));
           ("Date Reported",
            Time (nth i (to_datetime_coerce L now (column_at 4 rs)) None));
           ("Patient Name",
            Text (Py.title (nth 5 row EmptyString) ++ ", "
                  ++ Py.title (nth 6 row EmptyString)));
           ("DOB", Time (nth i (to_datetime_coerce L now (column_at 7 rs)) None));
           ("Source", Text (Py.capitalize (nth 9 row EmptyString)));
           ("Date of Collection",
            Time (nth i (to_datetime_coerce L now (column_at 10 rs)) None));
           ("Testing Lab", Text "TNL") ].
Proof.
  intros H Hrow _ _ _.
  destruct (column_creation_ok L now st rs interim H) as (pairs & Hm & _ & ->).
  pose proof (map_nth_error (fun r => nth 1 r EmptyString) i _ Hrow) as Hcell0.
  destruct (mapM_nth _ _ _ i _ Hm Hcell0) as ([m o] & Hcell & Hp).
  exists m, o. split; [assumption|].
  assert (Hi : i < List.length pairs) by (apply nth_error_Some; congruence).
  assert (Hrs : i < List.length rs) by (apply nth_error_Some; congruence).
  pose proof (nth_error_combine _ _ i _ _
                (map_nth_error (fun r => nth 5 r EmptyString) i _ Hrow)
                (map_nth_error (fun r => nth 6 r EmptyString) i _ Hrow)) as Hname.
  cbn [row_at map fst snd].
  rewrite !nth_dates by (unfold column_at; now rewrite length_map).
  unfold texts, patient_names, column_at.
  rewrite (nth_repeat_lt _ _ _ _ Hi), !map_map.
  rewrite (nth_map_nth_error _ _ i _ _ Hp), (nth_map_nth_error _ _ i _ _ Hp).
  rewrite (nth_map_nth_error _ _ i _ _ Hname).
  rewrite !(nth_map_nth_error _ _ i _ _ Hrow).
  reflexivity.
Qed.

Lemma spreadsheet_record_witness :
  let L := Sample.library Sample.sheet Sample.document Find.frame_attribute in
  let rs := skipn 1 (rows (Sample.sheet_of [ "KPC - K. pneumoniae"; "NDM - E. coli" ])) in
  exists interim row,
    column_creation L Sample.now_2024 Hyphen (Frame OUT_COL_NAMES rs) [] = Ok interim
    /\ nth_error rs 1 = Some row
    /\ row_at interim 1
       = [ (MECHANISM, Text "NDM");
           ("Organism", Text "E. coli");
           ("Date Received", Time (Some (Timestamp 2024 3 1 0)));
           ("Date Reported", Time (Some (Timestamp 2024 3 4 0)));
           ("Patient Name", Text "Smith, Jane");
           ("DOB", Time (Some (Timestamp 1980 2 29 0)));
           ("Source", Text "Urine culture");
           ("Date of Collection", Time None);
           ("Testing Lab", Text "TNL") ].
Proof.
  intros L rs.
  destruct (column_creation L Sample.now_2024 Hyphen (Frame OUT_COL_NAMES rs) [])
    as [interim|e] eqn:H; [|discriminate H].
  destruct (nth_error rs 1) as [row|] eqn:Hrow; [|discriminate Hrow].
  exists interim, row. split; [reflexivity|]. split; [reflexivity|].
  assert (H5 : ascii_text (nth 5 row EmptyString)).
  { injection Hrow as <-. split; [discriminate | reflexivity]. }
  assert (H6 : ascii_text (nth 6 row EmptyString)).
  { injection Hrow as <-. split; [discriminate | reflexivity]. }
  assert (H9 : ascii_text (nth 9 row EmptyString)).
  { injection Hrow as <-. split; [discriminate | reflexivity]. }
  destruct (spreadsheet_record L Sample.now_2024 Hyphen rs interim 1 row H Hrow H5 H6 H9)
    as (m & o & Hcell & Hrec).
  rewrite Hrec. injection Hrow as <-. injection Hcell as <- <-. reflexivity.
Defined.

(** X3.  A sheet that does not have fifteen columns is refused when the
    labels are assigned, before any cell is read. *)
Theorem sheet_width_is_checked
    (L : Library) (now : timestamp) (stream : string) (sheet : frame) :
  read_excel L stream = Ok sheet ->
  List.length (columns sheet) <> 15 ->
  parse_spreadsheet L now stream = Raise ValueError.
Proof.
  intros Hread Hw. unfold parse_spreadsheet. rewrite Hread. cbn [bind].
  unfold set_columns, drop_rows. cbn [columns List.length OUT_COL_NAMES].
  destruct (Nat.eqb 15 (List.length (columns sheet))) eqn:E; [|reflexivity].
  apply Nat.eqb_eq in E. congruence.
Qed.

Lemma sheet_width_is_checked_witness :
  let narrow := Frame [ "TN Alert"; "1" ] [ [ "No"; "Results" ]; [ "1"; "KPC - K. pneumoniae" ] ] in
  let L := Sample.library narrow Sample.document (Sample.always (Py.PyInt (-1))) in
  List.length (columns narrow) <> 15
  /\ parse_spreadsheet L Sample.now_2024 "bytes" = Raise ValueError.
Proof.
  intros narrow L.
  assert (Hw : List.length (columns narrow) <> 15) by (cbn; lia).
  split; [exact Hw|].
  exact (sheet_width_is_checked L Sample.now_2024 "bytes" narrow eq_refl Hw).
Defined.

(** X4.  On a frame without rows the column-creation code raises
    [ValueError] under either convention: with no pair to transpose, the
    unpacking into the two columns has nothing to unpack. *)
Theorem no_row_no_columns (L : Library) (now : timestamp) (st : strategy) :
  column_creation L now st (Frame OUT_COL_NAMES []) [] = Raise ValueError.
Proof. destruct st; reflexivity. Qed.

Lemma split_cell_error (st : strategy) (c : string) (e : exn) :
  split_cell st c = Raise e -> e = cell_error st.
Proof.
  destruct st; cbn [split_cell cell_error].
  - unfold hyphen_pair. destruct (Py.split "-" c) as [|m [|o [|x rest]]];
      intros H; try discriminate H; now injection H as <-.
  - unfold prefix_pair. destruct (OrgPattern.search c); intros H;
      [discriminate H | now injection H as <-].
Qed.

(** X5.  When every cell of the [Testing-Results] column holds a text, one
    cell that the convention cannot take apart makes the column-creation
    code raise, [ValueError] under the hyphen convention and
    [AttributeError] under the organism-prefix convention: no frame is
    built from the other rows. *)
Theorem one_bad_cell_fails_the_sheet
    (L : Library) (now : timestamp) (st : strategy) (rs : list (list string))
    (row : list string) (e : exn) :
  Forall (fun r => nth 1 r EmptyString <> EmptyString) rs ->
  In row rs ->
  split_cell st (nth 1 row EmptyString) = Raise e ->
  column_creation L now st (Frame OUT_COL_NAMES rs) [] = Raise (cell_error st).
Proof.
  intros _ Hin Hcell. unfold column_creation.
  rewrite (getitem_out_col "Testing-Results" 1 _ eq_refl). cbn [bind].
  rewrite (mapM_raises (split_cell st) _ (nth 1 row EmptyString) (cell_error st)).
  - reflexivity.
  - unfold column_at. apply in_map_iff. exists row. now split.
  - eauto.
  - intros x e'. apply split_cell_error.
Qed.

Lemma one_bad_cell_fails_the_sheet_witness :
  let L := Sample.library Sample.sheet Sample.document Find.frame_attribute in
  let rs := skipn 1 (rows (Sample.sheet_of [ "KPC - K. pneumoniae"; "NDM-1 - E. coli" ])) in
  exists row,
    nth_error rs 1 = Some row
    /\ split_cell Hyphen (nth 1 row EmptyString) = Raise ValueError
    /\ column_creation L Sample.now_2024 Hyphen (Frame OUT_COL_NAMES rs) []
       = Raise ValueError.
Proof.
  intros L rs.
  destruct (nth_error rs 1) as [row|] eqn:Hrow; [|discriminate Hrow].
  exists row. split; [reflexivity|].
  assert (Hin : In row rs) by exact (nth_error_In _ _ Hrow).
  assert (Hcell : split_cell Hyphen (nth 1 row EmptyString) = Raise ValueError).
  { injection Hrow as <-. reflexivity. }
  assert (Hall : Forall (fun r => nth 1 r EmptyString <> EmptyString) rs).
  { repeat constructor; discriminate. }
  split; [exact Hcell|].
  exact (one_bad_cell_fails_the_sheet L Sample.now_2024 Hyphen rs row ValueError
           Hall Hin Hcell).
Defined.

(** X21.  With the attribute lookup of the frame for [data.find], the
    spreadsheet transformation returns no frame, whatever the stream holds:
    it ends with what the reader raises, with [ValueError] at the
    assignment of the labels, or, for a sheet of fifteen columns, with
    [AttributeError] at the test of line 121. *)
Theorem spreadsheet_transformation_returns_no_frame
    (L : Library) (now : timestamp) (stream : string) :
  df_find L = Find.frame_attribute ->
  (forall interim, parse_spreadsheet L now stream <> Ok interim)
  /\ (forall e, read_excel L stream = Raise e ->
        parse_spreadsheet L now stream = Raise e)
  /\ (forall sheet,
        read_excel L stream = Ok sheet ->
        parse_spreadsheet L now stream
        = Raise (if Nat.eqb (List.length (columns sheet)) 15
                 then AttributeError else ValueError)).
Proof.
  intros H. rewrite (parse_spreadsheet_raises L now stream H).
  destruct (read_excel L stream) as [sheet|e].
  - split.
    { intros interim. destruct (Nat.eqb 15 (List.length (columns sheet))); discriminate. }
    split; [intros e He; discriminate He|].
    intros sheet' Hs. injection Hs as <-. rewrite (Nat.eqb_sym 15).
    destruct (Nat.eqb (List.length (columns sheet)) 15); reflexivity.
  - split; [intros interim; discriminate|].
    split; [intros e' He; now injection He as <- | intros sheet Hs; discriminate Hs].
Qed.

Lemma spreadsheet_transformation_returns_no_frame_witness :
  let L := Sample.library (Sample.sheet_of [ "Candida auris - C. auris" ])
             Sample.document Find.frame_attribute in
  parse_spreadsheet L Sample.now_2024 "bytes" = Raise AttributeError
  /\ forall interim, parse_spreadsheet L Sample.now_2024 "bytes" <> Ok interim.
Proof.
  intros L.
  destruct (spreadsheet_transformation_returns_no_frame L Sample.now_2024 "bytes" eq_refl)
    as (Hno & _ & Hsheet).
  split; [|exact Hno].
  exact (Hsheet (Sample.sheet_of [ "Candida auris - C. auris" ]) eq_refl).
Defined.

(** ** The records of the document-table transformation *)

Lemma index_of_none (name : string) (l : list string) :
  index_of name l = None <-> ~ In name l.
Proof.
  induction l as [|n l IH]; cbn [index_of In]; [tauto|].
  destruct (String.eqb n name) eqn:E.
  - apply String.eqb_eq in E. split; [discriminate | tauto].
  - apply String.eqb_neq in E.
    destruct (index_of name l); cbn [option_map].
    + split; [discriminate|]. intros H.
      assert (Hn : ~ In name l) by tauto. apply IH in Hn. discriminate Hn.
    + split; [|reflexivity]. intros _ [H|H]; [congruence|].
      now apply (proj1 IH eq_refl).
Qed.

Lemma getitem_of_label (name : string) (labels : list string) (rs : list (list string)) :
  In name labels ->
  getitem name (Frame labels rs) = Ok (map (cell_under name labels) rs).
Proof.
  intros Hin. unfold getitem, cell_under. cbn [columns rows].
  destruct (index_of name labels) eqn:E; [reflexivity|].
  now apply index_of_none in E.
Qed.

Lemma getitem_without_label (name : string) (labels : list string) (rs : list (list string)) :
  ~ In name labels -> getitem name (Frame labels rs) = Raise KeyError.
Proof.
  intros Hin. unfold getitem. cbn [columns].
  now rewrite (proj2 (index_of_none name labels) Hin).
Qed.

Lemma getitem_ok_label (name : string) (labels : list string) (rs : list (list string))
    (col : list string) :
  getitem name (Frame labels rs) = Ok col ->
  In name labels /\ col = map (cell_under name labels) rs.
Proof.
  intros H. destruct (in_dec string_dec name labels) as [Hin|Hin].
  - rewrite (getitem_of_label _ _ _ Hin) in H. injection H as <-. now split.
  - rewrite (getitem_without_label _ _ _ Hin) in H. discriminate H.
Qed.

(** The frame of a table with its date, its labels and its rows. *)
Lemma parse_document_of_table
    (L : Library) (now : timestamp) (stream : string) (raw : list (list string))
    (text : string) (d : timestamp) (labels : list string) :
  first_table L stream = Ok raw ->
  iloc00 raw = Ok text ->
  header_date L now text = Ok d ->
  nth_error raw 1 = Some labels ->
  Forall (fun l => In l labels) DOCUMENT_LABELS ->
  parse_document L now stream
  = Ok [ (MECHANISM,
          texts (map (cell_under "Anti-Microbial Resistance RT-PCR" labels) (skipn 2 raw)));
         ("Organism", texts (map (cell_under "Organism ID" labels) (skipn 2 raw)));
         ("Date Received", repeat (Time (Some d)) (List.length (skipn 2 raw)));
         ("Date Reported", repeat (Time (Some d)) (List.length (skipn 2 raw)));
         ("Patient Name", texts (map (cell_under "Patient Name" labels) (skipn 2 raw)));
         ("DOB", dates L now (map (cell_under "DOB" labels) (skipn 2 raw)));
         ("Source",
          texts (map Py.capitalize (map (cell_under "Source" labels) (skipn 2 raw))));
         ("Date of Collection",
          dates L now (map (cell_under "Date of Collection" labels) (skipn 2 raw)));
         ("Testing Lab", repeat (Text "GPHL") (List.length (skipn 2 raw)));
         ("Facility of Origin",
          texts (map (cell_under "Received from" labels) (skipn 2 raw))) ].
Proof.
  intros Hraw Ht Hd Hl Hall. unfold parse_document.
  rewrite Hraw. cbn [bind]. rewrite Ht. cbn [bind]. rewrite Hd. cbn [bind].
  rewrite Hl. cbn [bind]. unfold drop_rows. cbn [columns rows].
  remember (skipn 2 raw) as rs eqn:Hrs. clear Hrs.
  unfold DOCUMENT_LABELS in Hall.
  repeat match goal with
  | Hf : Forall _ (_ :: _) |- _ => inversion Hf; subst; clear Hf
  end.
  repeat (rewrite getitem_of_label by assumption; cbn [bind]).
  unfold setitem_scalar, MECHANISM, texts.
  cbn [setitem String.eqb Ascii.eqb Bool.eqb String.append nrows].
  now rewrite !length_map.
Qed.

Lemma parse_document_ok
    (L : Library) (now : timestamp) (stream : string) (raw : list (list string))
    (interim : table) :
  first_table L stream = Ok raw ->
  parse_document L now stream = Ok interim ->
  exists text d labels,
    iloc00 raw = Ok text
    /\ header_date L now text = Ok d
    /\ nth_error raw 1 = Some labels
    /\ Forall (fun l => In l labels) DOCUMENT_LABELS.
Proof.
  intros Hraw H. unfold parse_document in H. rewrite Hraw in H. cbn [bind] in H.
  binds H. clear H.
  match goal with Hn : match nth_error raw 1 with _ => _ end = Ok ?l |- _ =>
    destruct (nth_error raw 1) as [labels|] eqn:Hl; [|discriminate Hn];
    injection Hn as <-
  end.
  unfold drop_rows in *. cbn [columns rows] in *.
  repeat match goal with
  | Hg : getitem _ (Frame labels _) = Ok _ |- _ =>
      apply getitem_ok_label in Hg as [Hg _]
  end.
  do 3 eexists. split; [eassumption|]. split; [eassumption|]. split; [reflexivity|].
  unfold DOCUMENT_LABELS. repeat constructor; assumption.
Qed.

(** X6.  The record of a row of the table whose source cell holds ASCII
    text: each field is the cell under the label that the script names for
    it, the mechanism, the organism, the patient name and the facility as
    they stand, the source capitalised, the answers of the coercing date
    parser for the row in the two date columns, the date that the fuzzy
    parser read from the first cell of the table, as [pd.to_datetime]
    converts it, in both report columns, and the label [GPHL].  Columns
    under other labels are not carried over. *)
Theorem document_record
    (L : Library) (now : timestamp) (stream : string) (raw : list (list string))
    (interim : table) (labels : list string) (i : nat) (row : list string) :
  first_table L stream = Ok raw ->
  parse_document L now stream = Ok interim ->
  nth_error raw 1 = Some labels ->
  nth_error (skipn 2 raw) i = Some row ->
  Py.isascii (cell_under "Source" labels row) = true ->
  exists text parsed d,
    iloc00 raw = Ok text
    /\ dparser_parse L now text = Ok parsed
    /\ to_datetime L parsed = Ok d
    /\ row_at interim i
       = [ (MECHANISM, Text (cell_under "Anti-Microbial Resistance RT-PCR" labels row));
           ("Organism", Text (cell_under "Organism ID" labels row));
           ("Date Received", Time (Some d));
           ("Date Reported", Time (Some d));
           ("Patient Name", Text (cell_under "Patient Name" labels row));
           ("DOB",
            Time (nth i (to_datetime_coerce L now
                           (map (cell_under "DOB" labels) (skipn 2 raw))) None));
           ("Source", Text (Py.capitalize (cell_under "Source" labels row)));
           ("Date of Collection",
            Time (nth i (to_datetime_coerce L now
                           (map (cell_under "Date of Collection" labels) (skipn 2 raw)))
                    None));
           ("Testing Lab", Text "GPHL");
           ("Facility of Origin", Text (cell_under "Received from" labels row)) ].
Proof.
  intros Hraw H Hl Hrow _.
  destruct (parse_document_ok L now stream raw interim Hraw H)
    as (text & d & labels' & Ht & Hd & Hl' & Hall).
  rewrite Hl in Hl'. injection Hl' as <-.
  pose proof (parse_document_of_table L now stream raw text d labels Hraw Ht Hd Hl Hall)
    as Hex.
  rewrite H in Hex.
  unfold header_date in Hd.
  destruct (dparser_parse L now text) as [parsed|e] eqn:Hp; [|discriminate Hd].
  cbn [bind] in Hd.
  exists text, parsed, d.
  split; [exact Ht|]. split; [exact Hp|]. split; [exact Hd|].
  assert (Hi : i < List.length (skipn 2 raw)) by (apply nth_error_Some; congruence).
  remember (skipn 2 raw) as rs eqn:Hrs. clear Hrs. injection Hex as ->.
  cbn [row_at map fst snd].
  rewrite !nth_dates by (now rewrite length_map).
  unfold texts.
  rewrite !(nth_repeat_lt _ _ _ _ Hi), !map_map.
  rewrite !(nth_map_nth_error _ _ i _ _ Hrow).
  reflexivity.
Qed.

Lemma document_record_witness :
  let L := Sample.library Sample.sheet Sample.document Find.frame_attribute in
  exists raw interim labels row,
    first_table L "bytes" = Ok raw
    /\ parse_document L Sample.now_2024 "bytes" = Ok interim
    /\ nth_error raw 1 = Some labels
    /\ nth_error (skipn 2 raw) 1 = Some row
    /\ row_at interim 1
       = [ (MECHANISM, Text "NDM");
           ("Organism", Text "E. coli");
           ("Date Received", Time (Some (Timestamp 2024 3 5 0)));
           ("Date Reported", Time (Some (Timestamp 2024 3 5 0)));
           ("Patient Name", Text "Roe, Ann");
           ("DOB", Time None);
           ("Source", Text "Wound swab");
           ("Date of Collection", Time (Some (Timestamp 2024 3 3 0)));
           ("Testing Lab", Text "GPHL");
           ("Facility of Origin", Text "Clinic") ].
Proof.
  intros L.
  destruct (first_table L "bytes") as [raw|e] eqn:Hraw; [|discriminate Hraw].
  destruct (parse_document L Sample.now_2024 "bytes") as [interim|e] eqn:H;
    [|discriminate H].
  destruct (nth_error raw 1) as [labels|] eqn:Hl.
  2:{ injection Hraw as <-. discriminate Hl. }
  destruct (nth_error (skipn 2 raw) 1) as [row|] eqn:Hrow.
  2:{ injection Hraw as <-. discriminate Hrow. }
  exists raw, interim, labels, row.
  split; [reflexivity|]. split; [reflexivity|]. split; [exact Hl|].
  split; [exact Hrow|].
  assert (Hascii : Py.isascii (cell_under "Source" labels row) = true).
  { injection Hraw as <-. injection Hl as <-. injection Hrow as <-. reflexivity. }
  destruct (document_record L Sample.now_2024 "bytes" raw interim labels 1 row
              Hraw H Hl Hrow Hascii) as (text & parsed & d & Ht & Hp & Hc & Hrec).
  rewrite Hrec. injection Hraw as <-. injection Hl as <-. injection Hrow as <-.
  injection Ht as <-. injection Hp as <-. injection Hc as <-. reflexivity.
Defined.

(** X7.  The frame of the document-table transformation has one record
    for each row of the table after the first two. *)
Theorem document_row_count
    (L : Library) (now : timestamp) (stream : string) (raw : list (list string))
    (interim : table) :
  first_table L stream = Ok raw ->
  parse_document L now stream = Ok interim ->
  2 <= List.length raw
  /\ List.length (to_records interim) = List.length raw - 2
  /\ Forall (fun nc => List.length (snd nc) = List.length raw - 2) interim.
Proof.
  intros Hraw H.
  destruct (parse_document_ok L now stream raw interim Hraw H)
    as (text & d & labels & Ht & Hd & Hl & Hall).
  pose proof (parse_document_of_table L now stream raw text d labels Hraw Ht Hd Hl Hall)
    as Hex.
  rewrite H in Hex.
  assert (Hlen : 2 <= List.length raw).
  { assert (1 < List.length raw) by (apply nth_error_Some; congruence). lia. }
  split; [exact Hlen|]. rewrite length_to_records.
  rewrite <- (length_skipn 2 raw).
  remember (skipn 2 raw) as rs eqn:Hrs. clear Hrs. injection Hex as ->.
  cbn [nrows]. unfold texts.
  split. { now rewrite !length_map. }
  repeat constructor; cbn [snd];
    rewrite ?length_dates, ?length_map, ?length_map, ?length_map, ?repeat_length;
    reflexivity.
Qed.

Lemma document_row_count_witness :
  let L := Sample.library Sample.sheet Sample.document (Sample.always (Py.PyInt (-1))) in
  exists raw interim,
    first_table L "bytes" = Ok raw
    /\ parse_document L Sample.now_2024 "bytes" = Ok interim
    /\ List.length raw = 4
    /\ List.length (to_records interim) = List.length raw - 2.
Proof.
  intros L.
  destruct (first_table L "bytes") as [raw|e] eqn:Hraw; [|discriminate Hraw].
  destruct (parse_document L Sample.now_2024 "bytes") as [interim|e] eqn:H;
    [|discriminate H].
  exists raw, interim. split; [reflexivity|]. split; [reflexivity|].
  split; [injection Hraw as <-; reflexivity|].
  exact (proj1 (proj2 (document_row_count L Sample.now_2024 "bytes" raw interim Hraw H))).
Defined.

(** X8.  A table that ends after the row of labels is accepted, unlike a
    sheet without alerts: the frame has no record and the file that would
    be written holds the line of labels only. *)
Theorem document_without_alerts
    (L : Library) (now : timestamp) (stream : string) (raw : list (list string))
    (interim : table) :
  first_table L stream = Ok raw ->
  parse_document L now stream = Ok interim ->
  List.length raw = 2 ->
  to_records interim = []
  /\ Csv.to_csv L interim = Csv.line (CANONICAL ++ ["Facility of Origin"]).
Proof.
  intros Hraw H Hlen.
  destruct (parse_document_ok L now stream raw interim Hraw H)
    as (text & d & labels & Ht & Hd & Hl & Hall).
  pose proof (parse_document_of_table L now stream raw text d labels Hraw Ht Hd Hl Hall)
    as Hex.
  rewrite H in Hex.
  assert (Hs : skipn 2 raw = []).
  { destruct raw as [|r0 [|r1 [|r2 rs]]]; cbn in Hlen; try discriminate Hlen.
    reflexivity. }
  rewrite Hs in Hex. injection Hex as ->. split; reflexivity.
Qed.

Lemma document_without_alerts_witness :
  let tables := [ [ [ "Alert report date: March 5, 2024" ];
                    [ "Anti-Microbial Resistance RT-PCR"; "Organism ID"; "Patient Name";
                      "DOB"; "Source"; "Date of Collection"; "Received from" ] ] ] in
  let L := Sample.library Sample.sheet tables (Sample.always (Py.PyInt (-1))) in
  exists raw interim,
    first_table L "bytes" = Ok raw
    /\ parse_document L Sample.now_2024 "bytes" = Ok interim
    /\ List.length raw = 2
    /\ to_records interim = []
    /\ Csv.to_csv L interim = Csv.line (CANONICAL ++ ["Facility of Origin"]).
Proof.
  intros tables L.
  destruct (first_table L "bytes") as [raw|e] eqn:Hraw; [|discriminate Hraw].
  destruct (parse_document L Sample.now_2024 "bytes") as [interim|e] eqn:H;
    [|discriminate H].
  assert (Hlen : List.length raw = 2) by (injection Hraw as <-; reflexivity).
  exists raw, interim. split; [reflexivity|]. split; [reflexivity|].
  split; [exact Hlen|].
  exact (document_without_alerts L Sample.now_2024 "bytes" raw interim Hraw H Hlen).
Defined.

(** X9.  In a table whose labels are distinct and whose first cell gave the
    report date, a row of labels that lacks one of the seven labels that
    the script reads makes the document-table transformation raise
    [KeyError], whatever the rows hold. *)
Theorem missing_label_raises
    (L : Library) (now : timestamp) (stream : string) (raw : list (list string))
    (text : string) (d : timestamp) (labels : list string) (label : string) :
  first_table L stream = Ok raw ->
  iloc00 raw = Ok text ->
  header_date L now text = Ok d ->
  nth_error raw 1 = Some labels ->
  NoDup labels ->
  In label DOCUMENT_LABELS ->
  ~ In label labels ->
  parse_document L now stream = Raise KeyError.
Proof.
  intros Hraw Ht Hd Hl _ Hin Hmiss. unfold parse_document.
  rewrite Hraw. cbn [bind]. rewrite Ht. cbn [bind]. rewrite Hd. cbn [bind].
  rewrite Hl. cbn [bind]. unfold drop_rows. cbn [columns rows].
  repeat match goal with
  | |- context [getitem ?n (Frame labels ?rs)] =>
      let Hn := fresh "Hn" in
      destruct (in_dec string_dec n labels) as [Hn|Hn];
      [ rewrite (getitem_of_label n labels rs Hn); cbn [bind]
      | rewrite (getitem_without_label n labels rs Hn); reflexivity ]
  end.
  exfalso. unfold DOCUMENT_LABELS in Hin. cbn [In] in Hin.
  repeat (destruct Hin as [<-|Hin]; [now apply Hmiss|]). exact Hin.
Qed.

Lemma missing_label_raises_witness :
  let labels := [ "Anti-Microbial Resistance RT-PCR"; "Organism"; "Patient Name";
                  "DOB"; "Source"; "Date of Collection"; "Received from" ] in
  let tables := [ [ [ "Alert report date: March 5, 2024" ];
                    labels;
                    [ "KPC"; "K. pneumoniae"; "Doe, John"; "1970-01-31"; "urine";
                      "2024-03-02"; "Clinic" ] ] ] in
  let L := Sample.library Sample.sheet tables Find.frame_attribute in
  NoDup labels
  /\ ~ In "Organism ID" labels
  /\ parse_document L Sample.now_2024 "bytes" = Raise KeyError.
Proof.
  intros labels tables L.
  assert (Hnd : NoDup labels).
  { repeat (constructor;
            [ cbn [In]; intros Hin;
              repeat (destruct Hin as [Hin|Hin]; [discriminate Hin|]); exact Hin |]).
    constructor. }
  assert (Hmiss : ~ In "Organism ID" labels).
  { cbn [In]. intros H. repeat (destruct H as [H|H]; [discriminate H|]). exact H. }
  split; [exact Hnd|]. split; [exact Hmiss|].
  refine (missing_label_raises L Sample.now_2024 "bytes" _ _ _ labels "Organism ID"
            eq_refl eq_refl eq_refl eq_refl Hnd _ Hmiss).
  cbn. right. left. reflexivity.
Defined.

(** X10.  A table whose labels are distinct is accepted by the
    document-table transformation exactly when the fuzzy parser reads a date
    from its first cell, [pd.to_datetime] converts that date, and the row
    of labels carries the seven labels that the script reads; nothing is
    asked of the rows after it. *)
Theorem document_accepted_iff
    (L : Library) (now : timestamp) (stream : string) (raw : list (list string))
    (labels : list string) :
  first_table L stream = Ok raw ->
  nth_error raw 1 = Some labels ->
  NoDup labels ->
  (exists interim, parse_document L now stream = Ok interim)
  <-> (exists text parsed d,
         iloc00 raw = Ok text
         /\ dparser_parse L now text = Ok parsed
         /\ to_datetime L parsed = Ok d)
      /\ Forall (fun l => In l labels) DOCUMENT_LABELS.
Proof.
  intros Hraw Hl _. split.
  - intros (interim & H).
    destruct (parse_document_ok L now stream raw interim Hraw H)
      as (text & d & labels' & Ht & Hd & Hl' & Hall).
    rewrite Hl in Hl'. injection Hl' as <-.
    unfold header_date in Hd.
    destruct (dparser_parse L now text) as [parsed|e] eqn:Hp; [|discriminate Hd].
    cbn [bind] in Hd. split; [|exact Hall].
    exists text, parsed, d. repeat split; assumption.
  - intros [(text & parsed & d & Ht & Hp & Hc) Hall].
    assert (Hd : header_date L now text = Ok d).
    { unfold header_date. rewrite Hp. exact Hc. }
    eexists. exact (parse_document_of_table L now stream raw text d labels
                      Hraw Ht Hd Hl Hall).
Qed.

Lemma document_accepted_iff_witness :
  let L := Sample.library Sample.sheet Sample.document Find.frame_attribute in
  let undated := Sample.library Sample.sheet
                   (Sample.document_with "Carbapenemase alert, no date given")
                   Find.frame_attribute in
  (exists interim, parse_document L Sample.now_2024 "bytes" = Ok interim)
  /\ ~ (exists interim, parse_document undated Sample.now_2024 "bytes" = Ok interim).
Proof.
  intros L undated.
  assert (Hnd : NoDup [ "Anti-Microbial Resistance RT-PCR"; "Organism ID"; "Patient Name";
                        "DOB"; "Source"; "Date of Collection"; "Received from";
                        "Lab ID" ]).
  { repeat (constructor;
            [ cbn [In]; intros Hin;
              repeat (destruct Hin as [Hin|Hin]; [discriminate Hin|]); exact Hin |]).
    constructor. }
  split.
  - apply (document_accepted_iff L Sample.now_2024 "bytes" _ _ eq_refl eq_refl Hnd).
    split.
    + exists "Alert report date: March 5, 2024", (Timestamp 2024 3 5 0),
        (Timestamp 2024 3 5 0). repeat split.
    + unfold DOCUMENT_LABELS. repeat constructor; cbn; tauto.
  - intros Hok.
    apply (document_accepted_iff undated Sample.now_2024 "bytes" _ _ eq_refl eq_refl Hnd)
      in Hok as [(text & parsed & d & Ht & Hp & _) _].
    injection Ht as <-. discriminate Hp.
Defined.

(** ** Runs that a transformation ends, and what a run addresses *)

(** X12.  The message of success is in the trace of a run exactly when the
    run ends normally: a run that raises never reports a transformed
    object. *)
Theorem success_is_logged_iff (L : Library) (W : World) (p : Parameters) :
  In (LogInfo (transformed p)) (snd (run L W p)) <-> fst (run L W p) = Ok tt.
Proof.
  rewrite run_cases.
  destruct (get_object W _ _) as [r|e].
  2:{ split; [intros [] | discriminate]. }
  pose proof (obtained_is_not_transformed p) as Hne.
  destruct (not_200 (status_code r)).
  { split; [|discriminate]. intros [H|[H|[]]]; discriminate H. }
  destruct (parse_spreadsheet L (clock W) (body r)) as [sheet_frame|e].
  2:{ split; [|discriminate]. intros [H|[H|[]]]; [discriminate H | contradiction]. }
  destruct (parse_document L (clock W) (body r)) as [interim|e].
  2:{ split; [|discriminate]. intros [H|[H|[]]]; [discriminate H | contradiction]. }
  destruct (put_object W _ _ _) as [r'|e].
  2:{ split; [|discriminate]. intros [H|[H|[]]]; [discriminate H | contradiction]. }
  unfold acquired, put_event. destruct (not_200 (status_code r')); cbn [fst snd app].
  - split; [|discriminate].
    intros [H|[H|[H|[H|[]]]]]; try discriminate H; contradiction.
  - split; [reflexivity|]. intros _. right. right. right. left. reflexivity.
Qed.

(** X13.  When the read succeeded and one of the two transformations
    raises, the run ends with that exception; this holds for the spreadsheet
    transformation too, although its frame would not be written.  The trace
    then holds the read and its message only: nothing is written and the
    failure is not logged. *)
Theorem transformation_failure_ends_run
    (L : Library) (W : World) (p : Parameters) (r : response) (e : exn) :
  get_object W (RAW_BUCKET_NAME p) (ALERT_OBJ_KEY p) = Ok r ->
  status_code r = Some 200%Z ->
  parse_spreadsheet L (clock W) (body r) = Raise e
  \/ ((exists sheet_frame, parse_spreadsheet L (clock W) (body r) = Ok sheet_frame)
      /\ parse_document L (clock W) (body r) = Raise e) ->
  run L W p = (Raise e, acquired p r)
  /\ written (snd (run L W p)) = []
  /\ forall msg, ~ In (LogError msg) (snd (run L W p)).
Proof.
  intros Hg Hst Hfail.
  assert (Hrun : run L W p = (Raise e, acquired p r)).
  { rewrite run_cases, Hg. rewrite (proj2 (not_200_false _) Hst).
    destruct Hfail as [Hs | [(sheet_frame & Hs) Hd]]; rewrite Hs; [reflexivity|].
    now rewrite Hd. }
  rewrite Hrun. split; [reflexivity|]. split; [reflexivity|].
  intros msg [H|[H|[]]]; discriminate H.
Qed.

Lemma transformation_failure_ends_run_witness :
  let narrow := Frame [ "TN Alert"; "1" ] [ [ "No"; "Results" ]; [ "1"; "KPC - K. pneumoniae" ] ] in
  let L := Sample.library narrow Sample.document (Sample.always (Py.PyInt (-1))) in
  let W := Sample.world (Some 200%Z) (Some 200%Z) Sample.now_2024 in
  parse_spreadsheet L (clock W) "bytes" = Raise ValueError
  /\ (exists interim, parse_document L (clock W) "bytes" = Ok interim)
  /\ run L W Sample.parameters
     = (Raise ValueError, acquired Sample.parameters (Response (Some 200%Z) "bytes"))
  /\ written (snd (run L W Sample.parameters)) = [].
Proof.
  intros narrow L W.
  assert (Hs : parse_spreadsheet L (clock W) "bytes" = Raise ValueError) by reflexivity.
  split; [exact Hs|]. split; [eexists; reflexivity|].
  destruct (transformation_failure_ends_run L W Sample.parameters
              (Response (Some 200%Z) "bytes") ValueError eq_refl eq_refl (or_introl Hs))
    as (Hrun & Hw & _).
  split; [exact Hrun | exact Hw].
Defined.

(** X14.  Whatever happens in a run, a read is addressed to the raw bucket
    and the alert key, and a write to the clean bucket and the key derived
    from the alert key; nothing else is read or written. *)
Theorem requests_are_addressed
    (L : Library) (W : World) (p : Parameters) (e : event) :
  In e (snd (run L W p)) ->
  match e with
  | GetObject bucket key _ =>
      bucket = RAW_BUCKET_NAME p /\ key = ALERT_OBJ_KEY p
  | PutObject bucket key _ _ =>
      bucket = CLEAN_BUCKET_NAME p /\ key = clean_obj_key (ALERT_OBJ_KEY p)
  | LogInfo msg => msg = obtained p \/ msg = transformed p
  | LogError msg => msg = get_error p \/ msg = put_error p
  end.
Proof.
  rewrite run_cases.
  destruct (get_object W _ _) as [r|ex]; [|intros []].
  destruct (not_200 (status_code r)).
  { intros [<-|[<-|[]]]; cbn; auto. }
  assert (Hacq : In e (acquired p r) ->
    match e with
    | GetObject bucket key _ => bucket = RAW_BUCKET_NAME p /\ key = ALERT_OBJ_KEY p
    | PutObject bucket key _ _ =>
        bucket = CLEAN_BUCKET_NAME p /\ key = clean_obj_key (ALERT_OBJ_KEY p)
    | LogInfo msg => msg = obtained p \/ msg = transformed p
    | LogError msg => msg = get_error p \/ msg = put_error p
    end).
  { intros [<-|[<-|[]]]; cbn; auto. }
  destruct (parse_spreadsheet L (clock W) (body r)) as [sheet_frame|ex]; [|exact Hacq].
  destruct (parse_document L (clock W) (body r)) as [interim|ex]; [|exact Hacq].
  destruct (put_object W _ _ _) as [r'|ex]; [|exact Hacq].
  destruct (not_200 (status_code r')); cbn [snd]; intros H;
    apply in_app_or in H as [H|[<-|[<-|[]]]];
    try (exact (Hacq H)); unfold put_event; cbn; auto.
Qed.

Lemma requests_are_addressed_witness :
  let L := Sample.library Sample.sheet Sample.document (Sample.always (Py.PyInt (-1))) in
  let W := Sample.world (Some 200%Z) (Some 500%Z) Sample.now_2024 in
  exists content,
    In (PutObject "clean" "tnl/alert.csv" content (Some 500%Z))
      (snd (run L W Sample.parameters))
    /\ "clean" = CLEAN_BUCKET_NAME Sample.parameters
    /\ "tnl/alert.csv" = clean_obj_key (ALERT_OBJ_KEY Sample.parameters).
Proof.
  intros L W. eexists.
  assert (Hin : In (PutObject "clean" "tnl/alert.csv"
                      (hd EmptyString (written (snd (run L W Sample.parameters))))
                      (Some 500%Z))
                  (snd (run L W Sample.parameters))).
  { vm_compute. right. right. left. reflexivity. }
  split; [exact Hin|].
  exact (requests_are_addressed L W Sample.parameters _ Hin).
Defined.

(** ** The clean key, for every key *)

Lemma find_from_sign (sub s : string) (i : Z) :
  (0 <= i)%Z ->
  (0 <=? Py.find_from sub s i)%Z = (0 <=? Py.find_from sub s 0)%Z.
Proof.
  revert i. induction s as [|c t IH]; intros i Hi; cbn [Py.find_from].
  - destruct (Py.startswith sub EmptyString); [|reflexivity].
    apply Z.leb_le in Hi. now rewrite Hi.
  - destruct (Py.startswith sub (String c t)).
    + apply Z.leb_le in Hi. now rewrite Hi.
    + rewrite (IH (i + 1)%Z) by lia. rewrite (IH (0 + 1)%Z) by lia. reflexivity.
Qed.

Lemma contains_cons (sub : string) (c : ascii) (t : string) :
  Py.contains sub (String c t)
  = Py.startswith sub (String c t) || Py.contains sub t.
Proof.
  unfold Py.contains, Py.find. cbn [Py.find_from].
  destruct (Py.startswith sub (String c t)); [reflexivity|].
  cbn [orb]. apply find_from_sign. lia.
Qed.

Lemma startswith_length (p s : string) :
  Py.startswith p s = true -> String.length p <= String.length s.
Proof.
  revert s. induction p as [|a p IH]; intros [|b s] H; cbn in *; try lia; try discriminate.
  apply andb_true_iff in H as [_ H]. apply IH in H. lia.
Qed.

Lemma length_append (s t : string) :
  String.length (s ++ t) = String.length s + String.length t.
Proof. induction s as [|c s IH]; cbn; [reflexivity | now rewrite IH]. Qed.

Lemma length_replace_go (k : nat) (s : string) :
  String.length (Py.replace_go ".xlsx" ".csv" k s) <= String.length s - k.
Proof.
  revert k. induction s as [|c t IH]; intros k; [cbn; lia|].
  destruct k as [|k].
  - cbn [Py.replace_go]. destruct (Py.startswith ".xlsx" (String c t)) eqn:Hs.
    + apply startswith_length in Hs. rewrite length_append.
      pose proof (IH (String.length ".xlsx" - 1)) as H. cbn in *. lia.
    + pose proof (IH 0) as H. cbn [String.length]. lia.
  - cbn [Py.replace_go String.length]. pose proof (IH k). lia.
Qed.

Lemma replace_go_absent (s : string) :
  Py.contains ".xlsx" s = false -> Py.replace_go ".xlsx" ".csv" 0 s = s.
Proof.
  induction s as [|c t IH]; [reflexivity|].
  rewrite contains_cons. intros H. apply orb_false_elim in H as [Hs Ht].
  cbn [Py.replace_go]. rewrite Hs. now rewrite IH.
Qed.

Lemma replace_go_present (s : string) :
  Py.contains ".xlsx" s = true ->
  String.length (Py.replace_go ".xlsx" ".csv" 0 s) < String.length s.
Proof.
  induction s as [|c t IH]; [discriminate|].
  rewrite contains_cons. cbn [Py.replace_go].
  destruct (Py.startswith ".xlsx" (String c t)) eqn:Hs.
  - intros _. apply startswith_length in Hs. rewrite length_append.
    pose proof (length_replace_go (String.length ".xlsx" - 1) t) as H. cbn in *. lia.
  - cbn [orb]. intros H. apply IH in H. cbn [String.length]. lia.
Qed.

(** X15.  The clean key is the alert key itself exactly when [.xlsx] does
    not occur in the alert key: for such a key, a [.docx] key for example,
    the object is written under the key it was read from. *)
Theorem clean_obj_key_fixes_iff (key : string) :
  clean_obj_key key = key <-> Py.contains ".xlsx" key = false.
Proof.
  unfold clean_obj_key, Py.replace. split.
  - intros H. destruct (Py.contains ".xlsx" key) eqn:Hc; [|reflexivity].
    apply replace_go_present in Hc. rewrite H in Hc. lia.
  - apply replace_go_absent.
Qed.

Lemma startswith_xlsx_app (c : ascii) (t : string) :
  Py.startswith ".xlsx" (String c t ++ ".xlsx") = Py.startswith ".xlsx" (String c t).
Proof.
  destruct t as [|b1 [|b2 [|b3 [|b4 t]]]]; cbn;
    repeat match goal with
           | |- context [Ascii.eqb ?x ?y] => destruct (Ascii.eqb x y)
           end; reflexivity.
Qed.

(** X16.  When [.xlsx] occurs in the alert key only as its ending, the
    clean key is the alert key with [.csv] in the place of that ending;
    what stands before it, dots included, is kept. *)
Theorem clean_obj_key_of_xlsx_key (stem : string) :
  Py.contains ".xlsx" stem = false ->
  clean_obj_key (stem ++ ".xlsx") = stem ++ ".csv".
Proof.
  unfold clean_obj_key, Py.replace.
  induction stem as [|c t IH]; [reflexivity|].
  rewrite contains_cons. intros H. apply orb_false_elim in H as [Hs Ht].
  change (String c t ++ ".xlsx") with (String c (t ++ ".xlsx")) at 1.
  cbn [Py.replace_go].
  change (String c (t ++ ".xlsx")) with (String c t ++ ".xlsx").
  rewrite startswith_xlsx_app, Hs. now rewrite IH.
Qed.

Lemma clean_obj_key_of_xlsx_key_witness :
  Py.contains ".xlsx" "tnl/2024.03/alert.v2" = false
  /\ clean_obj_key "tnl/2024.03/alert.v2.xlsx" = "tnl/2024.03/alert.v2.csv".
Proof.
  split; [reflexivity|].
  exact (clean_obj_key_of_xlsx_key "tnl/2024.03/alert.v2" eq_refl).
Defined.

(** ** What the organism pattern finds *)

Lemma lazy_until_comma_spec (t : string) (k : nat) :
  OrgPattern.lazy_until_comma t = Some k ->
  exists post,
    t = substring 0 k t ++ String ","%char post
    /\ occurs ","%char (substring 0 k t) = false
    /\ occurs OrgPattern.newline (substring 0 k t) = false
    /\ String.length (substring 0 k t) = k.
Proof.
  revert k. induction t as [|c t IH]; intros k; [discriminate|].
  cbn [OrgPattern.lazy_until_comma].
  destruct (Ascii.eqb c ","%char) eqn:Hc.
  - intros H. injection H as <-. apply Ascii.eqb_eq in Hc. subst c.
    exists t. repeat split; reflexivity.
  - destruct (Ascii.eqb c OrgPattern.newline) eqn:Hn; [discriminate|].
    destruct (OrgPattern.lazy_until_comma t) as [k'|]; [|discriminate].
    intros H. injection H as <-.
    destruct (IH k' eq_refl) as (post & Ht & Hcomma & Hline & Hlen).
    exists post. cbn [substring String.append occurs String.length].
    rewrite Hc, Hn, Hcomma, Hline, Hlen. rewrite <- Ht. repeat split; reflexivity.
Qed.

Lemma match_at_spec (s : string) (n : nat) :
  OrgPattern.match_at s = Some n ->
  exists a body post,
    substring 0 n s = String a (String "."%char body)
    /\ s = substring 0 n s ++ String ","%char post
    /\ Py.isupper a = true
    /\ occurs ","%char body = false
    /\ occurs OrgPattern.newline body = false
    /\ String.length (substring 0 n s) = n.
Proof.
  destruct s as [|a [|d t]]; try discriminate. cbn [OrgPattern.match_at].
  destruct (Py.isupper a) eqn:Ha; [|discriminate].
  destruct (Ascii.eqb d "."%char) eqn:Hd; [|discriminate].
  apply Ascii.eqb_eq in Hd. subst d.
  destruct (OrgPattern.lazy_until_comma t) as [k|] eqn:Hk; [|discriminate].
  intros H. injection H as <-.
  destruct (lazy_until_comma_spec t k Hk) as (post & Ht & Hcomma & Hline & Hlen).
  exists a, (substring 0 k t), post. cbn [substring String.append String.length Nat.add].
  rewrite Hlen, <- Ht. repeat split; assumption.
Qed.

Lemma search_spec (s g : string) :
  OrgPattern.search s = Some g ->
  exists pre post a body,
    s = pre ++ g ++ String ","%char post
    /\ g = String a (String "."%char body)
    /\ Py.isupper a = true
    /\ occurs ","%char body = false
    /\ occurs OrgPattern.newline body = false.
Proof.
  induction s as [|c t IH]; [discriminate|].
  cbn [OrgPattern.search]. destruct (OrgPattern.match_at (String c t)) as [n|] eqn:Hm.
  - intros H. injection H as <-.
    destruct (match_at_spec _ _ Hm) as (a & body & post & Hg & Hs & Ha & Hc & Hn & _).
    exists EmptyString, post, a, body. cbn [String.append].
    repeat split; assumption.
  - intros H. destruct (IH H) as (pre & post & a & body & -> & Hg & Hrest).
    exists (String c pre), post, a, body. split; [reflexivity|]. split; assumption.
Qed.

(** X17.  Under the organism-prefix convention the organism of a cell is a
    piece of the cell that a comma follows: a capital letter, a dot, and
    text without comma or line feed.  It is therefore never the text
    UNKNOWN that the script names as alternative. *)
Theorem organism_is_a_piece_of_the_cell (s mechanism organism : string) :
  prefix_pair s = Ok (mechanism, organism) ->
  (exists pre post a body,
     s = pre ++ organism ++ String ","%char post
     /\ organism = String a (String "."%char body)
     /\ Py.isupper a = true
     /\ occurs ","%char body = false
     /\ occurs OrgPattern.newline body = false)
  /\ organism <> "UNKNOWN".
Proof.
  unfold prefix_pair. destruct (OrgPattern.search s) as [g|] eqn:Hs; [|discriminate].
  destruct (search_spec s g Hs) as (pre & post & a & body & Hcell & Hg & Hrest).
  rewrite Hg at 1. cbn [String.eqb]. intros H. injection H as _ <-.
  split.
  - exists pre, post, a, body. split; [exact Hcell|]. split; [exact Hg | exact Hrest].
  - rewrite Hg. discriminate.
Qed.

Lemma organism_is_a_piece_of_the_cell_witness :
  prefix_pair "KPC detected in K. pneumoniae, urine"
  = Ok ("KPC detected in , urine", "K. pneumoniae")
  /\ exists pre post,
       "KPC detected in K. pneumoniae, urine"
       = pre ++ "K. pneumoniae" ++ String ","%char post.
Proof.
  assert (H : prefix_pair "KPC detected in K. pneumoniae, urine"
              = Ok ("KPC detected in , urine", "K. pneumoniae")) by reflexivity.
  split; [exact H|].
  destruct (organism_is_a_piece_of_the_cell _ _ _ H)
    as [(pre & post & _ & _ & Hcell & _) _].
  exists pre, post. exact Hcell.
Defined.

Lemma length_sub_go (k : nat) (s : string) :
  String.length (OrgPattern.sub_go k s) <= String.length s - k.
Proof.
  revert k. induction s as [|c t IH]; intros k; [cbn; lia|].
  destruct k as [|k]; cbn [OrgPattern.sub_go String.length].
  - destruct (OrgPattern.match_at (String c t)) as [n|].
    + pose proof (IH (n - 1)). lia.
    + pose proof (IH 0). cbn [String.length]. lia.
  - pose proof (IH k). lia.
Qed.

Lemma match_at_fits (s : string) (n : nat) :
  OrgPattern.match_at s = Some n -> 1 <= n < String.length s.
Proof.
  intros H. destruct (match_at_spec s n H) as (a & body & post & Hg & Hs & _ & _ & _ & Hlen).
  assert (Hl : String.length s = String.length (substring 0 n s ++ String ","%char post))
    by (now rewrite <- Hs).
  rewrite length_append, Hlen in Hl. cbn [String.length] in Hl.
  rewrite Hg in Hlen. cbn [String.length] in Hlen. lia.
Qed.

(** X18.  Under the organism-prefix convention the mechanism is the cell
    with the matches of the pattern cut out: it is shorter than the cell by
    at least the length of the organism. *)
Theorem mechanism_lost_the_organism (s mechanism organism : string) :
  prefix_pair s = Ok (mechanism, organism) ->
  String.length mechanism + String.length organism <= String.length s.
Proof.
  unfold prefix_pair. destruct (OrgPattern.search s) as [g|] eqn:Hs; [|discriminate].
  assert (Hg : (if String.eqb g EmptyString then "UNKNOWN" else g) = g).
  { destruct (search_shape s g Hs) as (a & t & _ & ->). reflexivity. }
  rewrite Hg. intros H. injection H as <- <-.
  unfold OrgPattern.sub. revert Hs. clear Hg.
  induction s as [|c t IH]; [discriminate|].
  cbn [OrgPattern.search OrgPattern.sub_go].
  destruct (OrgPattern.match_at (String c t)) as [n|] eqn:Hm.
  - intros H. clear IH.
    assert (Hg : g = substring 0 n (String c t)) by congruence.
    pose proof (match_at_fits _ _ Hm) as Hn.
    destruct (match_at_spec _ _ Hm) as (_ & _ & _ & _ & _ & _ & _ & _ & Hlen).
    rewrite Hg, Hlen. pose proof (length_sub_go (n - 1) t). cbn [String.length] in *. lia.
  - intros H. apply IH in H. cbn [String.length]. lia.
Qed.

Lemma mechanism_lost_the_organism_witness :
  prefix_pair "KPC, K. pneumoniae, E. coli, urine" = Ok ("KPC, , , urine", "K. pneumoniae")
  /\ String.length "KPC, , , urine" + String.length "K. pneumoniae"
     <= String.length "KPC, K. pneumoniae, E. coli, urine".
Proof.
  assert (H : prefix_pair "KPC, K. pneumoniae, E. coli, urine"
              = Ok ("KPC, , , urine", "K. pneumoniae")) by reflexivity.
  split; [exact H|].
  exact (mechanism_lost_the_organism _ _ _ H).
Defined.

(** ** What the hyphen convention yields *)

Lemma rstrip_rstrip (s : string) : Py.rstrip (Py.rstrip s) = Py.rstrip s.
Proof.
  induction s as [|c t IH]; [reflexivity|].
  cbn [Py.rstrip]. destruct (Py.rstrip t) as [|d r] eqn:Hr.
  - destruct (Py.isspace c) eqn:Hc; [reflexivity|]. cbn [Py.rstrip]. now rewrite Hc.
  - cbn [Py.rstrip]. cbn [Py.rstrip] in IH. rewrite IH. reflexivity.
Qed.

Lemma lstrip_head (s : string) :
  match Py.lstrip s with
  | EmptyString => True
  | String c _ => Py.isspace c = false
  end.
Proof.
  induction s as [|c t IH]; [exact I|].
  cbn [Py.lstrip]. destruct (Py.isspace c) eqn:Hc; [exact IH | exact Hc].
Qed.

Lemma strip_strip (s : string) : Py.strip (Py.strip s) = Py.strip s.
Proof.
  unfold Py.strip. pose proof (lstrip_head s) as Hh.
  destruct (Py.lstrip s) as [|c t]; [reflexivity|].
  assert (Hl : Py.lstrip (Py.rstrip (String c t)) = Py.rstrip (String c t)).
  { cbn [Py.rstrip]. destruct (Py.rstrip t); rewrite ?Hh; cbn [Py.lstrip]; now rewrite Hh. }
  rewrite Hl. apply rstrip_rstrip.
Qed.

Lemma hyphens_lstrip (s : string) : hyphens (Py.lstrip s) <= hyphens s.
Proof.
  induction s as [|c t IH]; [reflexivity|].
  cbn [Py.lstrip]. destruct (Py.isspace c); [|reflexivity]. cbn [hyphens]. lia.
Qed.

Lemma hyphens_rstrip (s : string) : hyphens (Py.rstrip s) <= hyphens s.
Proof.
  induction s as [|c t IH]; [reflexivity|].
  cbn [Py.rstrip]. destruct (Py.rstrip t) as [|d r].
  - destruct (Py.isspace c); cbn [hyphens] in *; lia.
  - cbn [hyphens] in *. lia.
Qed.

Lemma hyphens_strip (s : string) : hyphens s = 0 -> hyphens (Py.strip s) = 0.
Proof.
  intros H. unfold Py.strip.
  pose proof (hyphens_rstrip (Py.lstrip s)). pose proof (hyphens_lstrip s). lia.
Qed.

(** X19.  A cell yields a pair under the hyphen convention exactly when it
    holds one hyphen; every other cell makes the unpacking raise
    [ValueError]. *)
Theorem hyphen_pair_ok_iff (cell : string) :
  (exists mechanism organism, hyphen_pair cell = Ok (mechanism, organism))
  <-> hyphens cell = 1.
Proof.
  split.
  - intros (m & o & H). destruct (Nat.eq_dec (hyphens cell) 1) as [Heq|Hne]; [exact Heq|].
    unfold hyphen_pair in H. pose proof (length_split_hyphen cell) as Hlen.
    destruct (Py.split "-" cell) as [|m' [|o' [|x rest]]]; try discriminate H.
    cbn in Hlen. lia.
  - intros H. destruct (split_single_hyphen cell H) as (l & r & _ & _ & _ & Hs).
    exists (Py.strip l), (Py.strip r). unfold hyphen_pair. now rewrite Hs.
Qed.

(** X20.  The two parts that the hyphen convention yields hold no hyphen and
    neither starts nor ends with white space: stripping them again changes
    nothing. *)
Theorem hyphen_parts_are_stripped (cell mechanism organism : string) :
  hyphen_pair cell = Ok (mechanism, organism) ->
  hyphens mechanism = 0 /\ hyphens organism = 0
  /\ Py.strip mechanism = mechanism /\ Py.strip organism = organism.
Proof.
  intros H.
  assert (H1 : hyphens cell = 1).
  { destruct (Nat.eq_dec (hyphens cell) 1) as [Heq|Hne]; [exact Heq|].
    unfold hyphen_pair in H. pose proof (length_split_hyphen cell) as Hlen.
    destruct (Py.split "-" cell) as [|m' [|o' [|x rest]]]; try discriminate H.
    cbn in Hlen. lia. }
  destruct (split_single_hyphen cell H1) as (l & r & _ & Hl & Hr & Hs).
  unfold hyphen_pair in H. rewrite Hs in H. injection H as <- <-.
  repeat split; auto using hyphens_strip, strip_strip.
Qed.

Lemma hyphen_parts_are_stripped_witness :
  hyphen_pair "  NDM  -  Candida auris " = Ok ("NDM", "Candida auris")
  /\ Py.strip "NDM" = "NDM" /\ Py.strip "Candida auris" = "Candida auris".
Proof.
  assert (H : hyphen_pair "  NDM  -  Candida auris " = Ok ("NDM", "Candida auris"))
    by reflexivity.
  split; [exact H|].
  destruct (hyphen_parts_are_stripped _ _ _ H) as (_ & _ & Hm & Ho).
  split; [exact Hm | exact Ho].
Defined.
